(** * olmocr/bench/review_app.py: the review session and its record file

    A shallow embedding of the data layer of the review application: the
    record file [table_tests.jsonl] and how [load_dataset] groups it by
    document, the cursor handlers [next_pdf], [prev_pdf] and [goto_pdf]
    with [find_next_unchecked_pdf], the generic edit [update_test], and
    [save_dataset] with the files it touches.

    The module's globals and the machine it runs on (disk, temporary
    directory, standard output) form one [state]; every function of the
    source is a computation in a state-and-exception monad over it. *)

From Stdlib Require Import List String Ascii ZArith Bool Lia Permutation.
Import ListNotations.

Local Open Scope string_scope.
Local Open Scope Z_scope.
Local Open Scope list_scope.

Set Warnings "-register-all".

(** ** Values decoded from JSON

    What [json.loads] returns and [request.json] holds: [None], [bool],
    [int], [str], [list], and [dict] with string keys in insertion order.
    Numbers with a fraction or an exponent (Python floats) are left out. *)

Inductive json : Type :=
| JNull
| JBool (b : bool)
| JInt (n : Z)
| JStr (s : string)
| JList (l : list json)
| JDict (d : list (string * json)).

(** A test record is a Python [dict] with string keys. *)
Definition record : Type := list (string * json).

(** [d.get(name)]: the value of the first (and, for a decoded object, only)
    entry under [name]. *)
Fixpoint dict_get (name : string) (d : record) : option json :=
  match d with
  | [] => None
  | (n, v) :: d' => if String.eqb n name then Some v else dict_get name d'
  end.

(** [d.get(name)] with Python's default [None]. *)
Definition get (name : string) (d : record) : json :=
  match dict_get name d with
  | Some v => v
  | None => JNull
  end.

(** [d[name] = v]: an existing entry keeps its place, a new one goes last. *)
Fixpoint dict_set (name : string) (v : json) (d : record) : record :=
  match d with
  | [] => [(name, v)]
  | (n, w) :: d' =>
      if String.eqb n name then (n, v) :: d' else (n, w) :: dict_set name v d'
  end.

(** Python's truth value: [if pdf_name:]. *)
Definition truthy (v : json) : bool :=
  match v with
  | JNull => false
  | JBool b => b
  | JInt n => negb (n =? 0)
  | JStr s => negb (String.eqb s EmptyString)
  | JList l => match l with [] => false | _ => true end
  | JDict d => match d with [] => false | _ => true end
  end.

(** Python's [==] on decoded values.  [True] and [False] are the integers
    1 and 0; two lists are compared element by element; two dicts are equal
    when they have as many entries and agree on every key. *)
Fixpoint py_eq (a b : json) {struct a} : bool :=
  match a, b with
  | JNull, JNull => true
  | JBool x, JBool y => Bool.eqb x y
  | JBool x, JInt n => Z.b2z x =? n
  | JInt m, JBool y => m =? Z.b2z y
  | JInt m, JInt n => m =? n
  | JStr s, JStr t => String.eqb s t
  | JList l, JList l' =>
      (fix all2 (l : list json) (l' : list json) {struct l} : bool :=
         match l, l' with
         | [], [] => true
         | x :: l, y :: l' => py_eq x y && all2 l l'
         | _, _ => false
         end) l l'
  | JDict d, JDict d' =>
      Nat.eqb (List.length d) (List.length d') &&
      (fix all (d : list (string * json)) {struct d} : bool :=
         match d with
         | [] => true
         | (n, v) :: d =>
             match dict_get n d' with
             | Some v' => py_eq v v'
             | None => false
             end && all d
         end) d
  | _, _ => false
  end.

(** ** Dictionary keys

    Only hashable objects can be keys of a Python dict or be looked up in
    one: of the decoded values, the scalars.  A list or a dict raises
    [TypeError: unhashable type]. *)

Inductive key : Type :=
| KNone
| KBool (b : bool)
| KInt (n : Z)
| KStr (s : string).

Definition hash_key (v : json) : option key :=
  match v with
  | JNull => Some KNone
  | JBool b => Some (KBool b)
  | JInt n => Some (KInt n)
  | JStr s => Some (KStr s)
  | JList _ | JDict _ => None
  end.

Definition key_value (k : key) : json :=
  match k with
  | KNone => JNull
  | KBool b => JBool b
  | KInt n => JInt n
  | KStr s => JStr s
  end.

(** Keys are looked up with [==] (equal keys hash alike). *)
Definition key_eqb (a b : key) : bool := py_eq (key_value a) (key_value b).

(** [x in l] and [l.index(x)] on a list of names. *)
Definition py_in (x : key) (l : list key) : bool :=
  existsb (fun y => key_eqb y x) l.

Fixpoint index_of (x : key) (l : list key) : option Z :=
  match l with
  | [] => None
  | y :: l' =>
      if key_eqb y x then Some 0
      else match index_of x l' with
           | Some i => Some (i + 1)
           | None => None
           end
  end.

(** [len(l)] and [l[i]]; a negative index counts from the end. *)
Definition len {A : Type} (l : list A) : Z := Z.of_nat (List.length l).

Definition getitem {A : Type} (l : list A) (i : Z) : option A :=
  if (0 <=? i) && (i <? len l) then nth_error l (Z.to_nat i)
  else if (- len l <=? i) && (i <? 0) then nth_error l (Z.to_nat (len l + i))
  else None.

(** ** The index: [PDF_TESTS]

    A dict from document name to the list of that document's records.
    Insertion order is what [keys()] and [values()] iterate in, so the dict
    is an association list; a name occurs once. *)
Definition pdf_dict : Type := list (key * list record).

Definition keys (D : pdf_dict) : list key := map fst D.
Definition values (D : pdf_dict) : list (list record) := map snd D.

(** [D.get(k)] *)
Fixpoint pdf_get (k : key) (D : pdf_dict) : option (list record) :=
  match D with
  | [] => None
  | (k', l) :: D' => if key_eqb k' k then Some l else pdf_get k D'
  end.

(** [D[k]] on a [defaultdict(list)]: a missing name is entered with an
    empty list, which is returned. *)
Definition pdf_getitem (k : key) (D : pdf_dict) : list record * pdf_dict :=
  match pdf_get k D with
  | Some l => (l, D)
  | None => ([], D ++ [(k, [])])
  end.

(** Replace, in place, the list stored under [k] (if any) by its image:
    how a mutation of that list object shows in the dict. *)
Fixpoint pdf_update (k : key) (f : list record -> list record)
    (D : pdf_dict) : pdf_dict :=
  match D with
  | [] => []
  | (k', l) :: D' =>
      if key_eqb k' k then (k', f l) :: D' else (k', l) :: pdf_update k f D'
  end.

(** [D[k].append(test)] on a [defaultdict(list)]. *)
Definition pdf_append (k : key) (test : record) (D : pdf_dict) : pdf_dict :=
  let '(_, D1) := pdf_getitem k D in
  pdf_update k (fun l => l ++ [test]) D1.

(** ** The record file

    One line of [table_tests.jsonl] as [load_dataset] meets it.  Decoding is
    the library's work, so a line is given with what [json.loads] makes of
    it: [Json v] is text that decodes to [v]; [Raw text] is text that is
    blank or that [json.loads] rejects with [JSONDecodeError].  Writing
    [json.dumps(test) + "\n"] produces the line [Json (JDict test)]. *)
Inductive line : Type :=
| Raw (text : string)
| Json (v : json).

(** [str.isspace] on the characters below 256. *)
Definition isspace (c : ascii) : bool :=
  let n := nat_of_ascii c in
  ((9 <=? n) && (n <=? 13) || (28 <=? n) && (n <=? 32)
   || (n =? 133) || (n =? 160))%nat.

Fixpoint lstrip (s : string) : string :=
  match s with
  | EmptyString => EmptyString
  | String c s' => if isspace c then lstrip s' else s
  end.

Fixpoint rstrip (s : string) : string :=
  match s with
  | EmptyString => EmptyString
  | String c s' =>
      match rstrip s' with
      | EmptyString => if isspace c then EmptyString else String c EmptyString
      | t => String c t
      end
  end.

(** [line.strip()] *)
Definition strip (s : string) : string := rstrip (lstrip s).

(** ** Files *)

Record path : Type := { dirname : string; basename : string }.

(** [os.path.join(directory, name)] *)
Definition os_path_join (directory name : string) : path :=
  {| dirname := directory; basename := name |}.

Definition path_eqb (p q : path) : bool :=
  String.eqb (dirname p) (dirname q) && String.eqb (basename p) (basename q).

(** A disk holds the lines of each file that exists. *)
Definition disk_t : Type := list (path * list line).

Fixpoint read (p : path) (d : disk_t) : option (list line) :=
  match d with
  | [] => None
  | (q, c) :: d' => if path_eqb q p then Some c else read p d'
  end.

Fixpoint write (p : path) (c : list line) (d : disk_t) : disk_t :=
  match d with
  | [] => [(p, c)]
  | (q, c') :: d' =>
      if path_eqb q p then (q, c) :: d' else (q, c') :: write p c d'
  end.

Fixpoint delete (p : path) (d : disk_t) : disk_t :=
  match d with
  | [] => []
  | (q, c) :: d' => if path_eqb q p then delete p d' else (q, c) :: delete p d'
  end.

(** The filesystem a directory lives on ([st_dev]); 0 unless mounted. *)
Fixpoint st_dev (directory : string) (mounts : list (string * Z)) : Z :=
  match mounts with
  | [] => 0
  | (m, dev) :: mounts' =>
      if String.eqb m directory then dev else st_dev directory mounts'
  end.

(** ** State

    The globals of the module, then the machine: the directory and the name
    [tempfile] draws for its next file, the mounted filesystems, the disk,
    every earlier content of the disk (latest first: what an observer could
    have seen), and what was printed. *)
Record state : Type := mkState {
  DATASET_DIR : string;
  CURRENT_PDF : key;
  PDF_TESTS : pdf_dict;
  ALL_PDFS : list key;
  tempdir : string;
  tempname : string;
  mounts : list (string * Z);
  disk : disk_t;
  past : list disk_t;
  stdout : list string
}.

Definition with_CURRENT_PDF (k : key) (s : state) : state :=
  mkState (DATASET_DIR s) k (PDF_TESTS s) (ALL_PDFS s)
    (tempdir s) (tempname s) (mounts s) (disk s) (past s) (stdout s).

Definition with_PDF_TESTS (D : pdf_dict) (s : state) : state :=
  mkState (DATASET_DIR s) (CURRENT_PDF s) D (ALL_PDFS s)
    (tempdir s) (tempname s) (mounts s) (disk s) (past s) (stdout s).

Definition with_ALL_PDFS (l : list key) (s : state) : state :=
  mkState (DATASET_DIR s) (CURRENT_PDF s) (PDF_TESTS s) l
    (tempdir s) (tempname s) (mounts s) (disk s) (past s) (stdout s).

(** A change of the disk leaves the previous content in [past]. *)
Definition with_disk (d : disk_t) (s : state) : state :=
  mkState (DATASET_DIR s) (CURRENT_PDF s) (PDF_TESTS s) (ALL_PDFS s)
    (tempdir s) (tempname s) (mounts s) d (disk s :: past s) (stdout s).

Definition with_stdout (out : list string) (s : state) : state :=
  mkState (DATASET_DIR s) (CURRENT_PDF s) (PDF_TESTS s) (ALL_PDFS s)
    (tempdir s) (tempname s) (mounts s) (disk s) (past s) out.

(** ** Computations: state and exceptions

    A raised exception keeps the state reached so far, as in Python. *)

Inductive exn : Type :=
| FileNotFoundError
| FileExistsError
| OSError
| AttributeError
| TypeError
| ValueError
| IndexError.

(** [except OSError] also catches its subclasses. *)
Definition is_OSError (e : exn) : bool :=
  match e with
  | FileNotFoundError | FileExistsError | OSError => true
  | _ => false
  end.

Inductive result (A : Type) : Type :=
| Ok (a : A)
| Raise (e : exn).
Arguments Ok {A} a.
Arguments Raise {A} e.

Definition M (A : Type) : Type := state -> result A * state.

Definition ret {A : Type} (a : A) : M A := fun s => (Ok a, s).

Definition bind {A B : Type} (c : M A) (k : A -> M B) : M B :=
  fun s =>
    match c s with
    | (Ok a, s') => k a s'
    | (Raise e, s') => (Raise e, s')
    end.

Definition raise {A : Type} (e : exn) : M A := fun s => (Raise e, s).

Definition try_except {A : Type} (c : M A) (handler : exn -> M A) : M A :=
  fun s =>
    match c s with
    | (Ok a, s') => (Ok a, s')
    | (Raise e, s') => handler e s'
    end.

Definition get_state : M state := fun s => (Ok s, s).
Definition modify (f : state -> state) : M unit := fun s => (Ok tt, f s).

Notation "x <- c ;; k" := (bind c (fun x => k))
  (at level 61, c at next level, right associativity).
Notation "c ;; k" := (bind c (fun _ => k))
  (at level 61, right associativity).

(** [for x in l: body(x)] *)
Fixpoint for_each {A : Type} (l : list A) (body : A -> M unit) : M unit :=
  match l with
  | [] => ret tt
  | x :: l' => body x ;; for_each l' body
  end.

(** [print(text)] *)
Definition print (text : string) : M unit :=
  modify (fun s => with_stdout (stdout s ++ [text]) s).

(** ** What the library calls do to the disk *)

(** [tempfile.NamedTemporaryFile(mode='w', delete=False)]: no [dir] is
    given, so the file is made in [tempfile.gettempdir()], under a name
    that must not exist yet. *)
Definition NamedTemporaryFile : M path :=
  s <- get_state ;;
  let name := os_path_join (tempdir s) ("tmp" ++ tempname s)%string in
  match read name (disk s) with
  | Some _ => raise FileExistsError
  | None => modify (with_disk (write name [] (disk s))) ;; ret name
  end.

(** [temp_file.write(text)]: one more line at the end of the file (shown on
    the disk at once; Python hands it over when the buffer is flushed, at
    the latest when the [with] block closes the file). *)
Definition file_write (f : path) (l : line) : M unit :=
  s <- get_state ;;
  match read f (disk s) with
  | None => raise FileNotFoundError
  | Some c => modify (with_disk (write f (c ++ [l]) (disk s)))
  end.

(** [os.rename(src, dst)]: replaces [dst] in one step, and only within one
    filesystem ([OSError], errno EXDEV, otherwise). *)
Definition os_rename (src dst : path) : M unit :=
  s <- get_state ;;
  match read src (disk s) with
  | None => raise FileNotFoundError
  | Some c =>
      if st_dev (dirname src) (mounts s) =? st_dev (dirname dst) (mounts s)
      then modify (with_disk (write dst c (delete src (disk s))))
      else raise OSError
  end.

(** [shutil.copy2(src, dst)]: [open(dst, 'wb')] empties [dst], then the
    content of [src] is written into it. *)
Definition shutil_copy2 (src dst : path) : M unit :=
  s <- get_state ;;
  match read src (disk s) with
  | None => raise FileNotFoundError
  | Some c =>
      modify (with_disk (write dst [] (disk s))) ;;
      modify (fun s' => with_disk (write dst c (disk s')) s')
  end.

(** [os.unlink(p)] *)
Definition os_unlink (p : path) : M unit :=
  s <- get_state ;;
  match read p (disk s) with
  | None => raise FileNotFoundError
  | Some _ => modify (with_disk (delete p (disk s)))
  end.

(** [shutil.move(src, dst)] for a file [src] and a [dst] that is not a
    directory: [os.rename], and when that raises [OSError], copy then
    unlink. *)
Definition shutil_move (src dst : path) : M unit :=
  try_except (os_rename src dst)
    (fun e =>
       if is_OSError e then shutil_copy2 src dst ;; os_unlink src
       else raise e).

(** ** The program *)

(** [test.get("checked") is None] *)
Definition unchecked (test : record) : bool :=
  match get "checked" test with
  | JNull => true
  | _ => false
  end.

(** [PDF_TESTS[pdf_name]] *)
Definition PDF_TESTS_getitem (pdf_name : key) : M (list record) :=
  s <- get_state ;;
  let '(pdf_tests, D) := pdf_getitem pdf_name (PDF_TESTS s) in
  modify (with_PDF_TESTS D) ;;
  ret pdf_tests.

(** The loop of [find_next_unchecked_pdf] over the names still to visit. *)
Fixpoint scan_pdfs (names : list key) : M key :=
  match names with
  | [] => ret KNone
  | pdf_name :: names' =>
      pdf_tests <- PDF_TESTS_getitem pdf_name ;;
      if existsb unchecked pdf_tests then ret pdf_name else scan_pdfs names'
  end.

Definition find_next_unchecked_pdf : M key :=
  s <- get_state ;;
  scan_pdfs (ALL_PDFS s).

(** The lines [save_dataset] writes: the flattened tests, one per line. *)
Definition all_tests_of (D : pdf_dict) : list record := List.concat (values D).

Definition json_dumps_line (test : record) : line := Json (JDict test).

Definition save_dataset (jsonl_file : path) : M unit :=
  s <- get_state ;;
  let all_tests := all_tests_of (PDF_TESTS s) in
  temp_file <- NamedTemporaryFile ;;
  for_each all_tests (fun test => file_write temp_file (json_dumps_line test)) ;;
  shutil_move temp_file jsonl_file.

(** What a handler returns.  Of the arguments of the review page, [Render]
    carries the tests and the index of the document (its name is the
    cursor, [total_pdfs] the length of [ALL_PDFS]); [all_done.html] takes
    none, and is given an empty list and 0. *)
Inductive response : Type :=
| Redirect (endpoint : string)
| Jsonify (v : json)
| Render (template : string) (tests : list record) (pdf_index : Z).

Definition is_None (k : key) : bool :=
  match k with
  | KNone => true
  | _ => false
  end.

Definition index : M response :=
  s <- get_state ;;
  (if is_None (CURRENT_PDF s)
   then r <- find_next_unchecked_pdf ;; modify (with_CURRENT_PDF r)
   else ret tt) ;;
  s <- get_state ;;
  if is_None (CURRENT_PDF s) then ret (Render "all_done.html" [] 0)
  else
    let current_tests :=
      match pdf_get (CURRENT_PDF s) (PDF_TESTS s) with
      | Some l => l
      | None => []
      end in
    let pdf_index :=
      match index_of (CURRENT_PDF s) (ALL_PDFS s) with
      | Some i => i
      | None => 0
      end in
    ret (Render "review.html" current_tests pdf_index).

(** The loop of [update_test]: the first test whose id equals [test_id]
    gets the field, and the loop breaks. *)
Fixpoint set_first (test_id : json) (field : string) (value : json)
    (tests : list record) : list record :=
  match tests with
  | [] => []
  | test :: tests' =>
      if py_eq (get "id" test) test_id
      then dict_set field value test :: tests'
      else test :: set_first test_id field value tests'
  end.

Definition success : response := Jsonify (JDict [("status", JStr "success")]).

(** [update_test], given the four entries of the request body; [field] is
    the name of a field, a string.  [PDF_TESTS.get(pdf_name, [])] hashes
    [pdf_name]; the list it returns is the one stored in the dict, so the
    assignment shows there. *)
Definition update_test (pdf_name test_id : json) (field : string)
    (value : json) : M response :=
  s <- get_state ;;
  match hash_key pdf_name with
  | None => raise TypeError
  | Some k =>
      modify (with_PDF_TESTS
                (pdf_update k (set_first test_id field value) (PDF_TESTS s))) ;;
      let dataset_file := os_path_join (DATASET_DIR s) "table_tests.jsonl" in
      save_dataset dataset_file ;;
      ret success
  end.

(** [l.index(x)] raises [ValueError] when [x] is not in [l]; [l[i]] raises
    [IndexError] out of range. *)
Definition list_index (l : list key) (x : key) : M Z :=
  match index_of x l with
  | Some i => ret i
  | None => raise ValueError
  end.

Definition list_getitem (l : list key) (i : Z) : M key :=
  match getitem l i with
  | Some x => ret x
  | None => raise IndexError
  end.

Definition next_pdf : M response :=
  s <- get_state ;;
  (if py_in (CURRENT_PDF s) (ALL_PDFS s) then
     current_index <- list_index (ALL_PDFS s) (CURRENT_PDF s) ;;
     if current_index <? len (ALL_PDFS s) - 1 then
       x <- list_getitem (ALL_PDFS s) (current_index + 1) ;;
       modify (with_CURRENT_PDF x)
     else
       r <- find_next_unchecked_pdf ;; modify (with_CURRENT_PDF r)
   else
     r <- find_next_unchecked_pdf ;; modify (with_CURRENT_PDF r)) ;;
  ret (Redirect "index").

Definition prev_pdf : M response :=
  s <- get_state ;;
  (if py_in (CURRENT_PDF s) (ALL_PDFS s) then
     current_index <- list_index (ALL_PDFS s) (CURRENT_PDF s) ;;
     if current_index >? 0 then
       x <- list_getitem (ALL_PDFS s) (current_index - 1) ;;
       modify (with_CURRENT_PDF x)
     else ret tt
   else ret tt) ;;
  ret (Redirect "index").

Definition goto_pdf (index : Z) : M response :=
  s <- get_state ;;
  (if (0 <=? index) && (index <? len (ALL_PDFS s)) then
     x <- list_getitem (ALL_PDFS s) index ;;
     modify (with_CURRENT_PDF x)
   else ret tt) ;;
  ret (Redirect "index").

(** One turn of the loop of [load_dataset]. *)
Definition load_line (l : line) (pdf_tests : pdf_dict) : M pdf_dict :=
  match l with
  | Raw text =>
      let line := strip text in
      if String.eqb line EmptyString then ret pdf_tests
      else
        print ("Warning: Could not parse line as JSON: " ++ line)%string ;;
        ret pdf_tests
  | Json (JDict test) =>
      let pdf_name := get "pdf" test in
      if truthy pdf_name then
        match hash_key pdf_name with
        | Some k => ret (pdf_append k test pdf_tests)
        | None => raise TypeError
        end
      else ret pdf_tests
  | Json _ => raise AttributeError
  end.

Fixpoint load_lines (f : list line) (pdf_tests : pdf_dict) : M pdf_dict :=
  match f with
  | [] => ret pdf_tests
  | l :: f' =>
      pdf_tests' <- load_line l pdf_tests ;;
      load_lines f' pdf_tests'
  end.

Definition load_dataset (dataset_dir : string) : M (pdf_dict * list key) :=
  let dataset_file := os_path_join dataset_dir "table_tests.jsonl" in
  s <- get_state ;;
  match read dataset_file (disk s) with
  | None => raise FileNotFoundError
  | Some f =>
      pdf_tests <- load_lines f [] ;;
      let all_pdfs := keys pdf_tests in
      ret (pdf_tests, all_pdfs)
  end.

(** * Notions the properties are stated with *)

(** A name up to Python's [==]: [True] and [False] are 1 and 0. *)
Definition canon (k : key) : key :=
  match k with
  | KBool b => KInt (Z.b2z b)
  | _ => k
  end.

(** No two names of the index are equal for Python. *)
Definition distinct_names (D : pdf_dict) : Prop := NoDup (map canon (keys D)).

(** The records of a stream: the objects its lines decode to. *)
Definition records_of (f : list line) : list record :=
  flat_map (fun l => match l with Json (JDict test) => [test] | _ => [] end) f.

(** The document a record names: its [pdf] value when that is a name, a
    truthy scalar. *)
Definition doc_of (test : record) : option key :=
  if truthy (get "pdf" test) then hash_key (get "pdf" test) else None.

(** The record belongs to the document called [k]. *)
Definition in_document (k : key) (test : record) : bool :=
  match doc_of test with
  | Some k' => key_eqb k' k
  | None => false
  end.

(** A well-formed line holds a record that names its document; blank lines
    between records are allowed. *)
Definition well_formed_line (l : line) : bool :=
  match l with
  | Raw text => String.eqb (strip text) EmptyString
  | Json (JDict test) =>
      match doc_of test with
      | Some _ => true
      | None => false
      end
  | Json _ => false
  end.

Definition well_formed (f : list line) : Prop :=
  Forall (fun l => well_formed_line l = true) f.

(** Filing records one after the other, as the loop of [load_dataset] does
    with the records that name a document. *)
Fixpoint group (tests : list record) (D : pdf_dict) : pdf_dict :=
  match tests with
  | [] => D
  | test :: tests' =>
      match doc_of test with
      | Some k => group tests' (pdf_append k test D)
      | None => group tests' D
      end
  end.

(** The shape of an index that [load_dataset] built: names are distinct,
    no document is empty, a document is called by the [pdf] value of its
    first record and holds records of that document only. *)
Definition loaded_doc (entry : key * list record) : Prop :=
  match snd entry with
  | [] => False
  | test :: tests =>
      doc_of test = Some (fst entry) /\
      Forall (fun t => in_document (fst entry) t = true) tests
  end.

Definition loaded (D : pdf_dict) : Prop :=
  distinct_names D /\ Forall loaded_doc D.

(** The globals of a session agree: the ordered names are the names of the
    index, distinct, and none is [None]. *)
Definition session_ok (s : state) : Prop :=
  ALL_PDFS s = keys (PDF_TESTS s) /\
  distinct_names (PDF_TESTS s) /\
  ~ In KNone (keys (PDF_TESTS s)).

(** Looking up the record with a given (pdf, id) pair, the way the loop of
    [update_test] does. *)
Definition find_test (D : pdf_dict) (k : key) (test_id : json) : option record :=
  match pdf_get k D with
  | Some tests => find (fun test => py_eq (get "id" test) test_id) tests
  | None => None
  end.

(** The first document, in order, with an unchecked test. *)
Fixpoint first_unchecked (D : pdf_dict) : key :=
  match D with
  | [] => KNone
  | (k, tests) :: D' =>
      if existsb unchecked tests then k else first_unchecked D'
  end.

(** Everything of a state but the disk and its history. *)
Definition off_disk (s : state) :=
  (DATASET_DIR s, CURRENT_PDF s, PDF_TESTS s, ALL_PDFS s,
   tempdir s, tempname s, mounts s, stdout s).

(** The temporary file [save_dataset] will make, and the record file
    [update_test] saves to. *)
Definition temp_path (s : state) : path :=
  os_path_join (tempdir s) ("tmp" ++ tempname s)%string.

Definition dataset_file (s : state) : path :=
  os_path_join (DATASET_DIR s) "table_tests.jsonl".

(** Every record of the index is filed under the name of its document. *)
Definition filed (D : pdf_dict) : Prop :=
  distinct_names D /\
  Forall (fun e => Forall (fun t => in_document (fst e) t = true) (snd e)) D.

(** The document has at least one record whose [checked] is unset. *)
Definition has_unchecked (D : pdf_dict) (name : key) : Prop :=
  exists tests test,
    In (name, tests) D /\ In test tests /\ get "checked" test = JNull.

(** * A small dataset

    Two documents, [A] with two records and [B] with one, in a record file
    under [/data], which is mounted on its own filesystem; temporary files
    go to [/tmp]. *)

Definition rec_a1 : record :=
  [("pdf", JStr "A"); ("id", JInt 1); ("type", JStr "present");
   ("text", JStr "Income")].

Definition rec_a2 : record :=
  [("pdf", JStr "A"); ("id", JInt 2); ("type", JStr "order");
   ("before", JStr "Q1"); ("after", JStr "Q2"); ("checked", JNull)].

Definition rec_b1 : record :=
  [("pdf", JStr "B"); ("id", JInt 1); ("type", JStr "math");
   ("math", JStr "x^2"); ("checked", JStr "verified")].

Definition sample_stream : list line :=
  [Json (JDict rec_a1); Json (JDict rec_b1); Json (JDict rec_a2)].

Definition sample_index : pdf_dict :=
  [(KStr "A", [rec_a1; rec_a2]); (KStr "B", [rec_b1])].

Definition sample_state : state :=
  mkState "/data" (KStr "A") sample_index [KStr "A"; KStr "B"]
    "/tmp" "k3v9x2qd" [("/data", 1)]
    [(os_path_join "/data" "table_tests.jsonl", sample_stream)] [] [].

Definition sample_stale : state := with_CURRENT_PDF (KStr "Z") sample_state.

(** A record whose [pdf] is the empty string, and a session whose record
    file holds this record only. *)
Definition rec_unnamed : record := [("pdf", JStr EmptyString); ("id", JInt 1)].

Definition unnamed_state : state :=
  mkState "/data" KNone [] [] "/tmp" "k3v9x2qd" [("/data", 1)]
    [(os_path_join "/data" "table_tests.jsonl", [Json (JDict rec_unnamed)])]
    [] [].

(** A document with the id 7 on two records. *)
Definition rec_c1 : record := [("pdf", JStr "C"); ("id", JInt 7); ("text", JStr "a")].
Definition rec_c2 : record := [("pdf", JStr "C"); ("id", JInt 7); ("text", JStr "b")].


(** * Notions for the further properties *)

(** A line [load_dataset] gets through: text that does not decode, or an
    object whose [pdf] is falsy or can be a key. *)
Definition loadable (l : line) : bool :=
  match l with
  | Raw _ => true
  | Json (JDict test) =>
      negb (truthy (get "pdf" test)) ||
      match hash_key (get "pdf" test) with
      | Some _ => true
      | None => false
      end
  | Json _ => false
  end.

(** What a line makes [load_dataset] print. *)
Definition warning_of (l : line) : list string :=
  match l with
  | Raw text =>
      if String.eqb (strip text) EmptyString then []
      else [("Warning: Could not parse line as JSON: " ++ strip text)%string]
  | Json _ => []
  end.

Definition warnings_of (f : list line) : list string := flat_map warning_of f.

(** The exception a line that is not [loadable] ends the load with. *)
Definition exception_of (l : line) : exn :=
  match l with
  | Json (JDict _) => TypeError
  | _ => AttributeError
  end.

(** The record names a document. *)
Definition has_doc (test : record) : bool :=
  match doc_of test with
  | Some _ => true
  | None => false
  end.

(** Every content the disk has had, the present one first. *)
Definition observed (s : state) : list disk_t := disk s :: past s.

(** The cursor is [None] or names a document of the list. *)
Definition cursor_ok (s : state) : Prop :=
  CURRENT_PDF s = KNone \/ In (CURRENT_PDF s) (ALL_PDFS s).

(** The number of records of each document, in order. *)
Definition sizes (D : pdf_dict) : list nat :=
  map (fun e => List.length (snd e)) D.

(** A record file with a line that does not decode, a record without a
    name and a blank line before a record of [A]; and one with a line that
    decodes to a list between two records. *)
Definition noisy_stream : list line :=
  [Raw "{oops"; Json (JDict rec_unnamed); Raw " "; Json (JDict rec_a1)].

Definition noisy_state : state :=
  mkState "/data" KNone [] [] "/tmp" "k3v9x2qd" [("/data", 1)]
    [(os_path_join "/data" "table_tests.jsonl", noisy_stream)] [] [].

Definition broken_stream : list line :=
  [Json (JDict rec_a1); Json (JList [JInt 1]); Json (JDict rec_b1)].

Definition broken_state : state :=
  mkState "/data" KNone [] [] "/tmp" "k3v9x2qd" [("/data", 1)]
    [(os_path_join "/data" "table_tests.jsonl", broken_stream)] [] [].

(** The small dataset on a machine where [/tmp] and [/data] are on the
    same filesystem. *)
Definition one_fs_state : state :=
  mkState "/data" (KStr "A") sample_index [KStr "A"; KStr "B"]
    "/tmp" "k3v9x2qd" []
    [(os_path_join "/data" "table_tests.jsonl", sample_stream)] [] [].


(** The handler returns its redirect and changes the cursor only, leaving
    a session in order with its cursor on [None] or on a name of the
    list. *)
Definition moves_the_cursor_only (h : M response) (s : state) : Prop :=
  exists k,
    h s = (Ok (Redirect "index"), with_CURRENT_PDF k s) /\
    session_ok (with_CURRENT_PDF k s) /\
    cursor_ok (with_CURRENT_PDF k s).

(** A session with three documents, the cursor on the first, and the same
    session with the cursor on the second. *)
Definition three_index : pdf_dict :=
  [(KStr "A", [rec_a1; rec_a2]); (KStr "B", [rec_b1]);
   (KStr "C", [rec_c1; rec_c2])].

Definition three_state : state :=
  mkState "/data" (KStr "A") three_index [KStr "A"; KStr "B"; KStr "C"]
    "/tmp" "k3v9x2qd" [("/data", 1)] [] [] [].

Definition three_on_B : state := with_CURRENT_PDF (KStr "B") three_state.

(** The small dataset before the first page is shown: no cursor yet. *)
Definition fresh_state : state := with_CURRENT_PDF KNone sample_state.

(** * Properties *)

(** ** Names *)

Lemma key_eqb_canon (a b : key) : key_eqb a b = true <-> canon a = canon b.
Proof.
  destruct a as [|x|m|s], b as [|y|n|t]; unfold key_eqb; simpl;
    try (split; [discriminate | congruence]); try tauto.
  - destruct x, y; simpl; split; congruence.
  - rewrite Z.eqb_eq. split; congruence.
  - rewrite Z.eqb_eq. split; congruence.
  - rewrite Z.eqb_eq. split; congruence.
  - rewrite String.eqb_eq. split; congruence.
Qed.

Lemma key_eqb_refl (a : key) : key_eqb a a = true.
Proof. now apply key_eqb_canon. Qed.

Lemma key_eqb_sym (a b : key) : key_eqb a b = key_eqb b a.
Proof.
  destruct (key_eqb a b) eqn:E, (key_eqb b a) eqn:F; try reflexivity.
  - apply key_eqb_canon in E. symmetry in E. apply key_eqb_canon in E. congruence.
  - apply key_eqb_canon in F. symmetry in F. apply key_eqb_canon in F. congruence.
Qed.

Lemma key_eqb_false (a b : key) : key_eqb a b = false <-> canon a <> canon b.
Proof.
  rewrite <- key_eqb_canon. destruct (key_eqb a b); split; congruence.
Qed.

Lemma key_eqb_trans_l (a b c : key) :
  key_eqb a b = true -> key_eqb a c = key_eqb b c.
Proof.
  intros H. apply key_eqb_canon in H.
  destruct (key_eqb a c) eqn:E, (key_eqb b c) eqn:F; try reflexivity.
  - apply key_eqb_canon in E. apply key_eqb_false in F. congruence.
  - apply key_eqb_canon in F. apply key_eqb_false in E. congruence.
Qed.


Lemma pdf_get_fresh (k : key) (D : pdf_dict) :
  ~ In (canon k) (map canon (keys D)) -> pdf_get k D = None.
Proof.
  induction D as [|[k' l] D IH]; simpl; intros H; [reflexivity|].
  destruct (key_eqb k' k) eqn:E.
  - apply key_eqb_canon in E. exfalso. apply H. now left.
  - apply IH. intros I. apply H. now right.
Qed.

Lemma pdf_get_app_fresh (k : key) (D1 D2 : pdf_dict) :
  ~ In (canon k) (map canon (keys D1)) -> pdf_get k (D1 ++ D2) = pdf_get k D2.
Proof.
  induction D1 as [|[k' l] D1 IH]; simpl; intros H; [reflexivity|].
  destruct (key_eqb k' k) eqn:E.
  - apply key_eqb_canon in E. exfalso. apply H. now left.
  - apply IH. intros I. apply H. now right.
Qed.

Lemma pdf_get_In (k : key) (l : list record) (D : pdf_dict) :
  distinct_names D -> In (k, l) D -> pdf_get k D = Some l.
Proof.
  unfold distinct_names.
  induction D as [|[k' l'] D IH]; simpl; intros N I; [contradiction|].
  inversion N as [|x xs Hx N']; subst.
  destruct I as [I|I].
  - inversion I; subst. now rewrite key_eqb_refl.
  - destruct (key_eqb k' k) eqn:E.
    + apply key_eqb_canon in E. exfalso. apply Hx. rewrite E.
      apply in_map. change k with (fst (k, l)). now apply in_map.
    + now apply IH.
Qed.

Lemma pdf_get_Some_In (k : key) (l : list record) (D : pdf_dict) :
  pdf_get k D = Some l -> exists k', In (k', l) D /\ key_eqb k' k = true.
Proof.
  induction D as [|[k' l'] D IH]; simpl; [discriminate|].
  destruct (key_eqb k' k) eqn:E.
  - intros H. inversion H; subst. exists k'. split; [now left | assumption].
  - intros H. destruct (IH H) as [k2 [I E2]]. exists k2. split; [now right | assumption].
Qed.

(** ** Appending to the index *)

Lemma pdf_update_app_last (k : key) (f : list record -> list record)
    (D : pdf_dict) (l : list record) :
  pdf_get k D = None -> pdf_update k f (D ++ [(k, l)]) = D ++ [(k, f l)].
Proof.
  induction D as [|[k' l'] D IH]; simpl; intros H.
  - now rewrite key_eqb_refl.
  - destruct (key_eqb k' k); [discriminate|]. now rewrite IH.
Qed.

Lemma pdf_append_nil (k : key) (t : record) : pdf_append k t [] = [(k, [t])].
Proof. unfold pdf_append, pdf_getitem. simpl. now rewrite key_eqb_refl. Qed.

Lemma pdf_append_cons (k k' : key) (t : record) (l : list record) (D : pdf_dict) :
  pdf_append k t ((k', l) :: D) =
  if key_eqb k' k then (k', l ++ [t]) :: D else (k', l) :: pdf_append k t D.
Proof.
  unfold pdf_append, pdf_getitem. simpl.
  destruct (key_eqb k' k) eqn:E.
  - simpl. now rewrite E.
  - destruct (pdf_get k D); simpl; now rewrite E.
Qed.

Lemma pdf_append_known (k : key) (t : record) (D : pdf_dict) (l : list record) :
  pdf_get k D = Some l ->
  pdf_append k t D = pdf_update k (fun l => l ++ [t]) D /\
  pdf_get k (pdf_append k t D) = Some (l ++ [t]) /\
  keys (pdf_append k t D) = keys D.
Proof.
  induction D as [|[k' l'] D IH]; simpl; [discriminate|].
  rewrite pdf_append_cons. destruct (key_eqb k' k) eqn:E; simpl; rewrite E.
  - intros H. inversion H; subst. auto.
  - intros H. destruct (IH H) as [A [B C]]. rewrite A in *.
    unfold keys in *. simpl. now rewrite B, C.
Qed.

Lemma pdf_append_new (k : key) (t : record) (D : pdf_dict) :
  pdf_get k D = None ->
  pdf_append k t D = D ++ [(k, [t])] /\
  pdf_get k (pdf_append k t D) = Some [t] /\
  keys (pdf_append k t D) = keys D ++ [k].
Proof.
  induction D as [|[k' l'] D IH]; simpl.
  - intros _. rewrite pdf_append_nil. simpl. now rewrite key_eqb_refl.
  - rewrite pdf_append_cons. destruct (key_eqb k' k) eqn:E; [discriminate|].
    intros H. destruct (IH H) as [A [B C]]. rewrite A in *.
    unfold keys in *. simpl. rewrite E, B, C. auto.
Qed.

Lemma pdf_append_other (k k0 : key) (t : record) (D : pdf_dict) :
  key_eqb k k0 = false -> pdf_get k0 (pdf_append k t D) = pdf_get k0 D.
Proof.
  intros N. induction D as [|[k' l'] D IH].
  - rewrite pdf_append_nil. simpl. now rewrite N.
  - rewrite pdf_append_cons. destruct (key_eqb k' k) eqn:E; simpl.
    + rewrite key_eqb_sym in E. rewrite (key_eqb_trans_l _ _ _ E) in N.
      now rewrite N.
    + now rewrite IH.
Qed.

(** ** Loading *)

Lemma load_lines_cons (l : line) (f : list line) (D : pdf_dict) (s : state) :
  load_lines (l :: f) D s =
  match load_line l D s with
  | (Ok D', s') => load_lines f D' s'
  | (Raise e, s') => (Raise e, s')
  end.
Proof. reflexivity. Qed.

Lemma doc_of_Some (t : record) (k : key) :
  doc_of t = Some k <->
  truthy (get "pdf" t) = true /\ hash_key (get "pdf" t) = Some k.
Proof.
  unfold doc_of. destruct (truthy (get "pdf" t)); split.
  - auto.
  - now intros [_ H].
  - discriminate.
  - now intros [H _].
Qed.

Lemma load_lines_well_formed (f : list line) :
  well_formed f ->
  forall D s, load_lines f D s = (Ok (group (records_of f) D), s).
Proof.
  induction 1 as [|l f Hl Hf IH]; intros D s; [reflexivity|].
  rewrite load_lines_cons.
  destruct l as [text|v]; simpl in Hl.
  - simpl. rewrite Hl. simpl. apply IH.
  - destruct v as [| | | | |t]; try discriminate.
    destruct (doc_of t) as [k|] eqn:E; [|discriminate].
    simpl. rewrite E. apply doc_of_Some in E. destruct E as [T H].
    rewrite T, H. simpl. apply IH.
Qed.

Lemma all_tests_append (k : key) (t : record) (D : pdf_dict) :
  Permutation (all_tests_of (pdf_append k t D)) (all_tests_of D ++ [t]).
Proof.
  unfold all_tests_of, values.
  induction D as [|[k' l] D IH].
  - rewrite pdf_append_nil. apply Permutation_refl.
  - rewrite pdf_append_cons. destruct (key_eqb k' k); simpl.
    + rewrite <- !app_assoc. apply Permutation_app_head.
      apply Permutation_app_comm.
    + rewrite <- app_assoc. now apply Permutation_app_head.
Qed.

Lemma in_document_eq (k k0 : key) (t : record) :
  in_document k t = true -> in_document k0 t = key_eqb k k0.
Proof.
  unfold in_document. destruct (doc_of t) as [k'|]; [|discriminate].
  intros H. rewrite key_eqb_sym in H. symmetry. now apply key_eqb_trans_l.
Qed.

Lemma filter_other_docs (k0 : key) (D : pdf_dict) :
  Forall (fun e => Forall (fun t => in_document (fst e) t = true) (snd e)) D ->
  ~ In (canon k0) (map canon (keys D)) ->
  filter (in_document k0) (all_tests_of D) = [].
Proof.
  unfold all_tests_of, values.
  induction 1 as [|[k l] D Hl HD IH]; intros N; [reflexivity|].
  simpl in *. rewrite filter_app, IH by tauto. rewrite app_nil_r.
  assert (F : key_eqb k k0 = false).
  { apply key_eqb_false. intros C. apply N. now left. }
  clear - Hl F. induction Hl as [|t l Ht Hl IH]; [reflexivity|].
  simpl. now rewrite (in_document_eq _ k0 _ Ht), F.
Qed.

Lemma filter_append (k k0 : key) (t : record) (D : pdf_dict) :
  filed D -> doc_of t = Some k ->
  filter (in_document k0) (all_tests_of (pdf_append k t D)) =
  filter (in_document k0) (all_tests_of D) ++ filter (in_document k0) [t].
Proof.
  intros [N F] Ht. unfold distinct_names in N.
  induction D as [|[k' l] D IH].
  - now rewrite pdf_append_nil.
  - rewrite pdf_append_cons.
    inversion N as [|x xs Hx N']; subst. inversion F as [|e es He F']; subst.
    destruct (key_eqb k' k) eqn:E.
    + unfold all_tests_of, values. simpl. rewrite !filter_app.
      rewrite <- !app_assoc. f_equal.
      destruct (in_document k0 t) eqn:I.
      * fold (values D). fold (all_tests_of D).
        rewrite filter_other_docs; [simpl; now rewrite I | assumption |].
        unfold in_document in I. rewrite Ht in I.
        apply key_eqb_canon in E, I. now rewrite <- I, <- E.
      * simpl. rewrite I. now rewrite app_nil_r.
    + unfold all_tests_of, values in *. simpl. rewrite !filter_app.
      rewrite IH by assumption. now rewrite app_assoc.
Qed.

Lemma keys_append (k : key) (t : record) (D : pdf_dict) :
  keys (pdf_append k t D) = keys D \/
  (~ In (canon k) (map canon (keys D)) /\ keys (pdf_append k t D) = keys D ++ [k]).
Proof.
  unfold keys. induction D as [|[k' l] D IH].
  - right. rewrite pdf_append_nil. auto.
  - rewrite pdf_append_cons. destruct (key_eqb k' k) eqn:E; simpl.
    + now left.
    + destruct IH as [IH|[N IH]]; rewrite IH; [now left|right].
      split; [|reflexivity]. intros [C|C]; [|contradiction].
      apply key_eqb_false in E. congruence.
Qed.

Lemma distinct_append (k : key) (t : record) (D : pdf_dict) :
  distinct_names D -> distinct_names (pdf_append k t D).
Proof.
  unfold distinct_names. intros N.
  destruct (keys_append k t D) as [H|[F H]]; rewrite H; [assumption|].
  rewrite map_app. simpl.
  apply NoDup_app; [assumption | repeat constructor; auto |].
  intros x I [J|[]]. subst. contradiction.
Qed.

Lemma filed_append (k : key) (t : record) (D : pdf_dict) :
  filed D -> doc_of t = Some k -> filed (pdf_append k t D).
Proof.
  intros [N F] Ht. split; [now apply distinct_append|].
  assert (T : in_document k t = true).
  { unfold in_document. rewrite Ht. apply key_eqb_refl. }
  clear N. induction F as [|[k' l] D Hl F IH].
  - rewrite pdf_append_nil. repeat constructor. assumption.
  - rewrite pdf_append_cons. destruct (key_eqb k' k) eqn:E.
    + constructor; [|assumption]. simpl in *. apply Forall_app. split; [assumption|].
      constructor; [|constructor].
      rewrite (in_document_eq _ k' _ T). now rewrite key_eqb_sym.
    + constructor; assumption.
Qed.

Lemma group_filed (tests : list record) :
  forall D, filed D -> filed (group tests D).
Proof.
  induction tests as [|t tests IH]; intros D F; simpl; [assumption|].
  destruct (doc_of t) as [k|] eqn:E; [|now apply IH].
  apply IH. now apply filed_append.
Qed.




Lemma records_of_dumps (tests : list record) :
  records_of (map json_dumps_line tests) = tests.
Proof.
  induction tests as [|t tests IH]; simpl; [reflexivity|]. now rewrite IH.
Qed.

(** ** Files *)

Lemma path_eqb_eq (p q : path) : path_eqb p q = true <-> p = q.
Proof.
  destruct p as [d n], q as [d' n']. unfold path_eqb. simpl.
  rewrite andb_true_iff, !String.eqb_eq. split.
  - now intros [-> ->].
  - intros H. now inversion H.
Qed.

Lemma path_eqb_refl (p : path) : path_eqb p p = true.
Proof. now apply path_eqb_eq. Qed.

Lemma path_eqb_sym (p q : path) : path_eqb p q = path_eqb q p.
Proof.
  destruct (path_eqb p q) eqn:E, (path_eqb q p) eqn:F; try reflexivity.
  - apply path_eqb_eq in E. subst. now rewrite path_eqb_refl in F.
  - apply path_eqb_eq in F. subst. now rewrite path_eqb_refl in E.
Qed.

Lemma path_eqb_trans_l (p q r : path) :
  path_eqb p q = true -> path_eqb p r = path_eqb q r.
Proof. intros H. apply path_eqb_eq in H. now subst. Qed.

Lemma read_write_same (p : path) (c : list line) (d : disk_t) :
  read p (write p c d) = Some c.
Proof.
  induction d as [|[q c'] d IH]; simpl.
  - now rewrite path_eqb_refl.
  - destruct (path_eqb q p) eqn:E; simpl; now rewrite E.
Qed.

Lemma read_write_other (p q : path) (c : list line) (d : disk_t) :
  path_eqb q p = false -> read p (write q c d) = read p d.
Proof.
  intros N. induction d as [|[r c'] d IH]; simpl.
  - now rewrite N.
  - destruct (path_eqb r q) eqn:E; simpl.
    + now rewrite (path_eqb_trans_l _ _ p E), N.
    + now rewrite IH.
Qed.

Lemma read_delete_same (p : path) (d : disk_t) : read p (delete p d) = None.
Proof.
  induction d as [|[q c] d IH]; simpl; [reflexivity|].
  destruct (path_eqb q p) eqn:E; simpl; [assumption|]. now rewrite E.
Qed.

Lemma read_delete_other (p q : path) (d : disk_t) :
  path_eqb q p = false -> read p (delete q d) = read p d.
Proof.
  intros N. induction d as [|[r c] d IH]; simpl; [reflexivity|].
  destruct (path_eqb r q) eqn:E; simpl.
  - rewrite IH. rewrite (path_eqb_trans_l _ _ _ E). now rewrite N.
  - now rewrite IH.
Qed.


Lemma off_disk_DATASET_DIR (s s' : state) :
  off_disk s' = off_disk s -> DATASET_DIR s' = DATASET_DIR s.
Proof. unfold off_disk. intros H. now inversion H. Qed.

(** ** Saving *)

Lemma write_all (tmp : path) (tests : list record) :
  forall (s : state) (c : list line),
  read tmp (disk s) = Some c ->
  exists s',
    for_each tests (fun test => file_write tmp (json_dumps_line test)) s
      = (Ok tt, s') /\
    off_disk s' = off_disk s /\
    read tmp (disk s') = Some (c ++ map json_dumps_line tests) /\
    forall p, path_eqb tmp p = false -> read p (disk s') = read p (disk s).
Proof.
  induction tests as [|t tests IH]; intros s c H.
  - exists s. simpl. rewrite app_nil_r. auto.
  - destruct (IH (with_disk (write tmp (c ++ [json_dumps_line t]) (disk s)) s)
               (c ++ [json_dumps_line t])) as [s' [R [G [T O]]]].
    { simpl. apply read_write_same. }
    exists s'. split; [|split; [|split]].
    + cbn [for_each]. unfold bind at 1. unfold file_write at 1.
      unfold bind at 1. unfold get_state at 1. cbn beta iota.
      rewrite H. unfold modify at 1. exact R.
    + rewrite G. reflexivity.
    + rewrite T. rewrite <- app_assoc. reflexivity.
    + intros p N. rewrite (O p N). simpl. now apply read_write_other.
Qed.

Lemma shutil_move_ok (src dst : path) (s : state) (c : list line) :
  read src (disk s) = Some c ->
  path_eqb src dst = false ->
  exists s',
    shutil_move src dst s = (Ok tt, s') /\
    off_disk s' = off_disk s /\
    read dst (disk s') = Some c /\
    read src (disk s') = None.
Proof.
  intros H N.
  assert (N' : path_eqb dst src = false) by now rewrite path_eqb_sym.
  unfold shutil_move, try_except, os_rename, bind, get_state. cbn beta iota.
  rewrite H.
  destruct (st_dev (dirname src) (mounts s) =? st_dev (dirname dst) (mounts s)).
  - eexists. split; [reflexivity|]. simpl.
    rewrite read_write_same, read_write_other, read_delete_same by assumption.
    auto.
  - unfold raise. cbn. unfold shutil_copy2, os_unlink, bind, get_state, modify.
    cbn beta iota. rewrite H. cbn [disk with_disk].
    rewrite !read_write_other by assumption. rewrite H.
    eexists. split; [reflexivity|]. simpl.
    rewrite read_delete_other, read_write_same, read_delete_same by assumption.
    auto.
Qed.

Lemma save_dataset_ok (p : path) (s : state) :
  read (temp_path s) (disk s) = None ->
  path_eqb (temp_path s) p = false ->
  exists s',
    save_dataset p s = (Ok tt, s') /\
    off_disk s' = off_disk s /\
    read p (disk s') = Some (map json_dumps_line (all_tests_of (PDF_TESTS s))).
Proof.
  intros F N.
  set (s1 := with_disk (write (temp_path s) [] (disk s)) s).
  destruct (write_all (temp_path s) (all_tests_of (PDF_TESTS s)) s1 [])
    as [s2 [R2 [G2 [T2 _]]]].
  { simpl. apply read_write_same. }
  destruct (shutil_move_ok (temp_path s) p s2 _ T2 N) as [s3 [R3 [G3 [T3 _]]]].
  exists s3. split; [|split].
  - unfold save_dataset, bind at 1, get_state at 1. cbn beta iota.
    unfold bind at 1. unfold NamedTemporaryFile, bind at 1, get_state at 1.
    cbn beta iota. fold (temp_path s). rewrite F.
    unfold bind at 1, modify at 1, ret at 1. cbn beta iota. fold s1.
    unfold bind at 1. rewrite R2. exact R3.
  - rewrite G3, G2. reflexivity.
  - exact T3.
Qed.

Lemma save_dataset_inv (p : path) (s s' : state) :
  save_dataset p s = (Ok tt, s') -> read (temp_path s) (disk s) = None.
Proof.
  unfold save_dataset, bind at 1, get_state at 1. cbn beta iota.
  unfold bind at 1. unfold NamedTemporaryFile, bind at 1, get_state at 1.
  cbn beta iota. fold (temp_path s).
  destruct (read (temp_path s) (disk s)); [|reflexivity].
  unfold raise. discriminate.
Qed.

Lemma temp_is_not_dataset_file (s : state) (dir : string) :
  path_eqb (temp_path s) (os_path_join dir "table_tests.jsonl") = false.
Proof.
  unfold path_eqb, temp_path, os_path_join. simpl.
  apply andb_false_intro2. reflexivity.
Qed.

(** ** Editing *)

Lemma update_test_unhashable (pdf_name test_id : json) (field : string)
    (value : json) (s : state) :
  hash_key pdf_name = None ->
  update_test pdf_name test_id field value s = (Raise TypeError, s).
Proof. intros H. unfold update_test, bind, get_state. simpl. now rewrite H. Qed.

Lemma update_test_run (pdf_name test_id : json) (field : string)
    (value : json) (s : state) (k : key) :
  hash_key pdf_name = Some k ->
  update_test pdf_name test_id field value s =
  match save_dataset (dataset_file s)
          (with_PDF_TESTS
             (pdf_update k (set_first test_id field value) (PDF_TESTS s)) s)
  with
  | (Ok _, s') => (Ok success, s')
  | (Raise e, s') => (Raise e, s')
  end.
Proof.
  intros H. unfold update_test, bind at 1, get_state at 1. cbn beta iota.
  rewrite H. unfold bind at 1, modify at 1. cbn beta iota.
  unfold bind at 1. fold (dataset_file s).
  destruct (save_dataset _ _) as [[[]|e] s']; reflexivity.
Qed.

Lemma update_test_ok (pdf_name test_id : json) (field : string)
    (value : json) (s : state) (k : key) :
  hash_key pdf_name = Some k ->
  read (temp_path s) (disk s) = None ->
  exists s',
    update_test pdf_name test_id field value s = (Ok success, s') /\
    off_disk s' =
      off_disk (with_PDF_TESTS
        (pdf_update k (set_first test_id field value) (PDF_TESTS s)) s) /\
    read (dataset_file s) (disk s') =
      Some (map json_dumps_line (all_tests_of (PDF_TESTS s'))).
Proof.
  intros H F. rewrite (update_test_run _ _ _ _ _ _ H).
  set (s1 := with_PDF_TESTS _ s).
  destruct (save_dataset_ok (dataset_file s) s1) as [s' [R [G T]]].
  - exact F.
  - apply temp_is_not_dataset_file.
  - exists s'. rewrite R. split; [reflexivity|]. split; [exact G|].
    rewrite T. inversion G as [[H1 H2 H3 H4 H5 H6 H7 H8]].
    now rewrite H3.
Qed.

Lemma update_test_inv (pdf_name test_id : json) (field : string)
    (value : json) (s s' : state) (r : response) :
  update_test pdf_name test_id field value s = (Ok r, s') ->
  exists k, hash_key pdf_name = Some k /\ read (temp_path s) (disk s) = None.
Proof.
  destruct (hash_key pdf_name) as [k|] eqn:H.
  - rewrite (update_test_run _ _ _ _ _ _ H).
    destruct (save_dataset _ _) as [[[]|e] s1] eqn:R; [|discriminate].
    intros _. exists k. split; [reflexivity|].
    apply save_dataset_inv in R. exact R.
  - rewrite update_test_unhashable by assumption. discriminate.
Qed.

Lemma dict_get_set_same (name : string) (v : json) (d : record) :
  dict_get name (dict_set name v d) = Some v.
Proof.
  induction d as [|[n w] d IH]; simpl.
  - now rewrite String.eqb_refl.
  - destruct (String.eqb n name) eqn:E; simpl; now rewrite E.
Qed.

Lemma dict_get_set_other (name field : string) (v : json) (d : record) :
  field <> name -> dict_get name (dict_set field v d) = dict_get name d.
Proof.
  intros N. induction d as [|[n w] d IH]; simpl.
  - apply String.eqb_neq in N. now rewrite N.
  - destruct (String.eqb n field) eqn:E; simpl.
    + apply String.eqb_eq in E. subst. apply String.eqb_neq in N. now rewrite N.
    + now rewrite IH.
Qed.

Lemma get_set_other (name field : string) (v : json) (d : record) :
  field <> name -> get name (dict_set field v d) = get name d.
Proof. intros N. unfold get. now rewrite dict_get_set_other. Qed.

Lemma doc_of_set (field : string) (v : json) (t : record) :
  field <> "pdf" -> doc_of (dict_set field v t) = doc_of t.
Proof. intros N. unfold doc_of. now rewrite get_set_other. Qed.

Lemma in_document_set (k : key) (field : string) (v : json) (t : record) :
  field <> "pdf" -> in_document k (dict_set field v t) = in_document k t.
Proof. intros N. unfold in_document. now rewrite doc_of_set. Qed.

Lemma keys_update (k : key) (f : list record -> list record) (D : pdf_dict) :
  keys (pdf_update k f D) = keys D.
Proof.
  unfold keys. induction D as [|[k' l] D IH]; simpl; [reflexivity|].
  destruct (key_eqb k' k); simpl; [reflexivity|]. now rewrite IH.
Qed.

Lemma pdf_get_update (k k0 : key) (f : list record -> list record) (D : pdf_dict) :
  pdf_get k0 (pdf_update k f D) =
  if key_eqb k k0 then option_map f (pdf_get k0 D) else pdf_get k0 D.
Proof.
  induction D as [|[k' l] D IH]; simpl.
  - now destruct (key_eqb k k0).
  - destruct (key_eqb k' k) eqn:E; simpl.
    + rewrite <- (key_eqb_trans_l _ _ k0 E).
      now destruct (key_eqb k' k0).
    + rewrite IH. destruct (key_eqb k' k0) eqn:F; [|reflexivity].
      rewrite (key_eqb_trans_l _ _ k F), key_eqb_sym in E. now rewrite E.
Qed.

Lemma set_first_forall (P : record -> Prop) (test_id : json) (field : string)
    (value : json) (tests : list record) :
  (forall t, P t -> P (dict_set field value t)) ->
  Forall P tests -> Forall P (set_first test_id field value tests).
Proof.
  intros HP. induction 1 as [|t tests Ht H IH]; simpl; [constructor|].
  destruct (py_eq (get "id" t) test_id); constructor; auto.
Qed.

Lemma loaded_update (k : key) (test_id : json) (field : string) (value : json)
    (D : pdf_dict) :
  field <> "pdf" -> loaded D ->
  loaded (pdf_update k (set_first test_id field value) D).
Proof.
  intros N [Hn Hd]. split.
  - unfold distinct_names. now rewrite keys_update.
  - clear Hn. induction Hd as [|[k' l] D Hl Hd IH]; simpl; [constructor|].
    destruct (key_eqb k' k); constructor; try assumption.
    unfold loaded_doc in *. simpl in *.
    destruct l as [|t l]; [contradiction|]. destruct Hl as [Ht Hl]. simpl.
    destruct (py_eq (get "id" t) test_id).
    + split; [now rewrite doc_of_set | assumption].
    + split; [assumption|]. apply set_first_forall; [|assumption].
      intros t' H'. now rewrite in_document_set.
Qed.

Lemma find_set_first (test_id : json) (field : string) (value : json)
    (tests : list record) (r : record) :
  field <> "id" ->
  find (fun t => py_eq (get "id" t) test_id) tests = Some r ->
  find (fun t => py_eq (get "id" t) test_id)
       (set_first test_id field value tests) = Some (dict_set field value r).
Proof.
  intros N. induction tests as [|t tests IH]; simpl; [discriminate|].
  destruct (py_eq (get "id" t) test_id) eqn:E; simpl.
  - intros H. inversion H; subst. now rewrite get_set_other, E.
  - rewrite E. exact IH.
Qed.



(** ** Reloading what was saved *)

Lemma pdf_append_app (k : key) (t : record) (D1 D2 : pdf_dict) :
  ~ In (canon k) (map canon (keys D1)) ->
  pdf_append k t (D1 ++ D2) = D1 ++ pdf_append k t D2.
Proof.
  induction D1 as [|[k' l] D1 IH]; simpl; intros N; [reflexivity|].
  rewrite pdf_append_cons.
  destruct (key_eqb k' k) eqn:E.
  - apply key_eqb_canon in E. exfalso. apply N. now left.
  - rewrite IH; [reflexivity|]. intros I. apply N. now right.
Qed.

Lemma group_same_doc (k : key) (D1 : pdf_dict) (rest : list record)
    (tests : list record) :
  ~ In (canon k) (map canon (keys D1)) ->
  Forall (fun t => in_document k t = true) tests ->
  forall acc,
  group (tests ++ rest) (D1 ++ [(k, acc)]) =
  group rest (D1 ++ [(k, acc ++ tests)]).
Proof.
  intros N. induction 1 as [|t tests Ht H IH]; intros acc.
  - simpl. now rewrite app_nil_r.
  - simpl. unfold in_document in Ht.
    destruct (doc_of t) as [k'|]; [|discriminate].
    rewrite pdf_append_app.
    + rewrite pdf_append_cons. rewrite key_eqb_sym, Ht.
      rewrite IH. now rewrite <- app_assoc.
    + apply key_eqb_canon in Ht. now rewrite Ht.
Qed.

Lemma loaded_group (D2 : pdf_dict) :
  forall D1, loaded (D1 ++ D2) -> group (all_tests_of D2) D1 = D1 ++ D2.
Proof.
  induction D2 as [|[k l] D2 IH]; intros D1 [Hn Hd].
  - simpl. now rewrite app_nil_r.
  - assert (Hk : ~ In (canon k) (map canon (keys D1))).
    { unfold distinct_names, keys in Hn. rewrite !map_app in Hn. simpl in Hn.
      apply NoDup_remove_2 in Hn. intros I. apply Hn.
      apply in_or_app. now left. }
    assert (Hl : loaded_doc (k, l)).
    { rewrite Forall_forall in Hd. apply Hd. apply in_or_app. right. now left. }
    unfold loaded_doc in Hl. simpl in Hl.
    destruct l as [|t l]; [contradiction|]. destruct Hl as [Ht Hl].
    unfold all_tests_of, values. simpl. rewrite Ht.
    destruct (pdf_append_new k t D1 (pdf_get_fresh k D1 Hk)) as [-> _].
    rewrite (group_same_doc k D1 _ l Hk Hl [t]). simpl.
    change (D1 ++ (k, t :: l) :: D2) with (D1 ++ [(k, t :: l)] ++ D2).
    rewrite app_assoc. apply IH. rewrite <- app_assoc. now split.
Qed.

Lemma loaded_records (D : pdf_dict) :
  loaded D -> Forall (fun t => doc_of t <> None) (all_tests_of D).
Proof.
  intros [_ Hd]. unfold all_tests_of, values.
  induction Hd as [|[k l] D Hl Hd IH]; simpl; [constructor|].
  apply Forall_app. split; [|assumption].
  unfold loaded_doc in Hl. simpl in Hl.
  destruct l as [|t l]; [contradiction|]. destruct Hl as [Ht Hl].
  constructor; [congruence|].
  eapply Forall_impl; [|exact Hl]. intros t' H'. unfold in_document in H'.
  destruct (doc_of t'); [congruence | discriminate].
Qed.

Lemma dumps_well_formed (tests : list record) :
  Forall (fun t => doc_of t <> None) tests ->
  well_formed (map json_dumps_line tests).
Proof.
  induction 1 as [|t tests Ht H IH]; simpl; constructor; [|assumption].
  simpl. destruct (doc_of t); congruence.
Qed.

Lemma load_dataset_run (dir : string) (s : state) (f : list line) :
  read (os_path_join dir "table_tests.jsonl") (disk s) = Some f ->
  well_formed f ->
  load_dataset dir s =
  (Ok (group (records_of f) [], keys (group (records_of f) [])), s).
Proof.
  intros R W. unfold load_dataset, bind at 1, get_state at 1. cbn beta iota.
  rewrite R. unfold bind. now rewrite load_lines_well_formed.
Qed.

(** ** What [load_dataset] builds *)

Lemma loaded_append (k : key) (t : record) (D : pdf_dict) :
  loaded D -> doc_of t = Some k -> loaded (pdf_append k t D).
Proof.
  intros [Hn Hd] Ht. split; [now apply distinct_append|].
  clear Hn. induction Hd as [|[k' l] D Hl Hd IH].
  - rewrite pdf_append_nil. repeat constructor. assumption.
  - rewrite pdf_append_cons. destruct (key_eqb k' k) eqn:E.
    + constructor; [|assumption]. unfold loaded_doc in *. simpl in *.
      destruct l as [|t0 l]; [contradiction|]. destruct Hl as [H0 Hl].
      simpl. split; [assumption|]. apply Forall_app. split; [assumption|].
      repeat constructor. unfold in_document. rewrite Ht.
      now rewrite key_eqb_sym.
    + constructor; assumption.
Qed.

Lemma group_loaded (tests : list record) :
  forall D, loaded D -> loaded (group tests D).
Proof.
  induction tests as [|t tests IH]; intros D L; simpl; [assumption|].
  destruct (doc_of t) as [k|] eqn:E; [|now apply IH].
  apply IH. now apply loaded_append.
Qed.

Lemma loaded_nil : loaded [].
Proof. split; [constructor | constructor]. Qed.

Lemma loaded_named (D : pdf_dict) : loaded D -> ~ In KNone (keys D).
Proof.
  intros [_ Hd]. unfold keys.
  induction Hd as [|[k l] D Hl Hd IH]; simpl; [tauto|].
  intros [C|C]; [|tauto]. subst.
  unfold loaded_doc in Hl. simpl in Hl.
  destruct l as [|t l]; [contradiction|]. destruct Hl as [Ht _].
  apply doc_of_Some in Ht. destruct Ht as [T H].
  destruct (get "pdf" t); simpl in *; congruence.
Qed.

Lemma loaded_filed (D : pdf_dict) : loaded D -> filed D.
Proof.
  intros [Hn Hd]. split; [assumption|].
  eapply Forall_impl; [|exact Hd]. intros [k l] Hl.
  unfold loaded_doc in Hl. simpl in *.
  destruct l as [|t l]; [constructor|]. destruct Hl as [Ht Hl].
  constructor; [|assumption]. unfold in_document. rewrite Ht.
  apply key_eqb_refl.
Qed.

(** ** Scanning for the next document *)

Lemma with_PDF_TESTS_same (s : state) : with_PDF_TESTS (PDF_TESTS s) s = s.
Proof. now destruct s. Qed.

Lemma PDF_TESTS_getitem_hit (k : key) (s : state) (l : list record) :
  pdf_get k (PDF_TESTS s) = Some l -> PDF_TESTS_getitem k s = (Ok l, s).
Proof.
  intros H. unfold PDF_TESTS_getitem, bind, get_state, pdf_getitem.
  cbn beta iota. rewrite H. unfold modify, ret.
  now rewrite with_PDF_TESTS_same.
Qed.

Lemma scan_pdfs_total (names : list key) :
  forall s, exists r s', scan_pdfs names s = (Ok r, s') /\
    CURRENT_PDF s' = CURRENT_PDF s /\ ALL_PDFS s' = ALL_PDFS s.
Proof.
  induction names as [|k names IH]; intros s.
  - exists KNone, s. auto.
  - cbn [scan_pdfs]. unfold bind at 1.
    unfold PDF_TESTS_getitem, bind, get_state, modify, ret at 1. cbn beta iota.
    destruct (pdf_getitem k (PDF_TESTS s)) as [l D]. cbn beta iota.
    destruct (existsb unchecked l).
    + eexists. eexists. split; [reflexivity|]. auto.
    + destruct (IH (with_PDF_TESTS D s)) as [r [s' [R [C A]]]].
      exists r, s'. auto.
Qed.

Lemma scan_pdfs_first (D2 : pdf_dict) :
  forall D1 s, PDF_TESTS s = D1 ++ D2 -> distinct_names (D1 ++ D2) ->
  scan_pdfs (keys D2) s = (Ok (first_unchecked D2), s).
Proof.
  induction D2 as [|[k l] D2 IH]; intros D1 s HD Hn; [reflexivity|].
  assert (Hk : ~ In (canon k) (map canon (keys D1))).
  { unfold distinct_names, keys in Hn. rewrite !map_app in Hn. simpl in Hn.
    apply NoDup_remove_2 in Hn. intros I. apply Hn.
    apply in_or_app. now left. }
  cbn [scan_pdfs keys map fst first_unchecked]. unfold bind at 1.
  rewrite (PDF_TESTS_getitem_hit k s l).
  - destruct (existsb unchecked l); [reflexivity|].
    apply (IH (D1 ++ [(k, l)])); rewrite <- app_assoc; assumption.
  - rewrite HD, pdf_get_app_fresh by assumption. simpl.
    now rewrite key_eqb_refl.
Qed.

Lemma find_next_unchecked_pdf_run (s : state) :
  session_ok s ->
  find_next_unchecked_pdf s = (Ok (first_unchecked (PDF_TESTS s)), s).
Proof.
  intros [Ha [Hn _]]. unfold find_next_unchecked_pdf, bind, get_state.
  cbn beta iota. rewrite Ha. now apply (scan_pdfs_first _ []).
Qed.

Lemma unchecked_iff (t : record) :
  unchecked t = true <-> get "checked" t = JNull.
Proof. unfold unchecked. destruct (get "checked" t); split; congruence. Qed.

Lemma existsb_unchecked_false (l : list record) :
  existsb unchecked l = false <->
  forall t, In t l -> get "checked" t <> JNull.
Proof.
  split.
  - intros H t I C. apply unchecked_iff in C.
    assert (E : existsb unchecked l = true) by (apply existsb_exists; eauto).
    congruence.
  - intros H. destruct (existsb unchecked l) eqn:E; [|reflexivity].
    apply existsb_exists in E. destruct E as [t [I U]].
    apply unchecked_iff in U. exfalso. now apply (H t).
Qed.

Lemma first_unchecked_cases (D : pdf_dict) :
  ~ In KNone (keys D) ->
  (first_unchecked D = KNone /\
   Forall (fun e => existsb unchecked (snd e) = false) D) \/
  (first_unchecked D <> KNone /\
   exists D1 l D2,
     D = D1 ++ (first_unchecked D, l) :: D2 /\
     existsb unchecked l = true /\
     Forall (fun e => existsb unchecked (snd e) = false) D1).
Proof.
  induction D as [|[k l] D IH]; intros N.
  - left. split; [reflexivity | constructor].
  - simpl in *. destruct (existsb unchecked l) eqn:E.
    + right. split; [tauto|]. exists [], l, D. auto.
    + destruct IH as [[R F]|[R [D1 [l' [D2 [HD [U F]]]]]]]; [tauto | |].
      * left. split; [assumption|]. constructor; assumption.
      * right. split; [assumption|].
        exists ((k, l) :: D1), l', D2. simpl. rewrite <- HD.
        repeat split; auto.
Qed.

Lemma In_distinct_prefix (D1 D2 : pdf_dict) (k : key) (l : list record) :
  distinct_names (D1 ++ D2) -> In k (keys D1) -> In (k, l) (D1 ++ D2) ->
  In (k, l) D1.
Proof.
  unfold distinct_names, keys. rewrite !map_app. intros Hn Hk I.
  apply in_app_or in I. destruct I as [I|I]; [assumption|exfalso].
  revert Hn Hk. induction D1 as [|[k1 l1] D1 IH]; simpl; [tauto|].
  intros Hn [Hk|Hk].
  - subst. inversion Hn as [|x xs Hx _]. apply Hx. apply in_or_app. right.
    apply in_map. change k with (fst (k, l)). now apply in_map.
  - inversion Hn. now apply IH.
Qed.

(** ** Moving the cursor *)



Lemma first_unchecked_in (D : pdf_dict) :
  first_unchecked D = KNone \/ In (first_unchecked D) (keys D).
Proof.
  induction D as [|[k l] D IH]; simpl; [now left|].
  destruct (existsb unchecked l); [right; now left|].
  destruct IH; [now left | right; now right].
Qed.

Lemma save_dataset_exists (p : path) (s : state) (c : list line) :
  read (temp_path s) (disk s) = Some c ->
  save_dataset p s = (Raise FileExistsError, s).
Proof.
  intros H. unfold save_dataset, bind at 1, get_state at 1. cbn beta iota.
  unfold bind at 1. unfold NamedTemporaryFile, bind at 1, get_state at 1.
  cbn beta iota. fold (temp_path s). now rewrite H.
Qed.

Lemma update_test_PDF_TESTS (pdf_name test_id : json) (field : string)
    (value : json) (s : state) (k : key) :
  hash_key pdf_name = Some k ->
  PDF_TESTS (snd (update_test pdf_name test_id field value s)) =
  pdf_update k (set_first test_id field value) (PDF_TESTS s).
Proof.
  intros H. destruct (read (temp_path s) (disk s)) as [c|] eqn:F.
  - rewrite (update_test_run _ _ _ _ _ _ H).
    rewrite (save_dataset_exists _ _ c) by exact F. reflexivity.
  - destruct (update_test_ok pdf_name test_id field value s k H F)
      as [s' [U [G _]]].
    rewrite U. simpl. inversion G as [[G1 G2 G3 G4 G5 G6 G7 G8]].
    congruence.
Qed.

Lemma set_first_split (test_id : json) (field : string) (value : json)
    (before after : list record) (test : record) :
  Forall (fun t => py_eq (get "id" t) test_id = false) before ->
  py_eq (get "id" test) test_id = true ->
  set_first test_id field value (before ++ test :: after) =
  before ++ dict_set field value test :: after.
Proof.
  intros B T. induction B as [|t before Ht B IH]; simpl.
  - now rewrite T.
  - now rewrite Ht, IH.
Qed.

Lemma lstrip_blank (text : string) :
  (forall c, In c (list_ascii_of_string text) -> isspace c = true) ->
  lstrip text = EmptyString.
Proof.
  induction text as [|c text IH]; simpl; intros H; [reflexivity|].
  rewrite (H c) by now left. apply IH. intros c' I. apply H. now right.
Qed.

Lemma strip_blank (text : string) :
  (forall c, In c (list_ascii_of_string text) -> isspace c = true) ->
  strip text = EmptyString.
Proof. intros H. unfold strip. now rewrite lstrip_blank. Qed.

(** Two kinds of line end the load with an exception that [load_dataset]
    does not catch: text that decodes to something other than an object has
    no [get], and a list or an object as [pdf] cannot be a key. *)
Example load_line_not_an_object (D : pdf_dict) (s : state) :
  load_line (Json (JInt 42)) D s = (Raise AttributeError, s).
Proof. reflexivity. Qed.

Example load_line_unhashable_pdf (D : pdf_dict) (s : state) :
  load_line (Json (JDict [("pdf", JList [JStr "A"])])) D s
  = (Raise TypeError, s).
Proof. reflexivity. Qed.

(** What [load_dataset] builds from a well-formed file has the shape
    [loaded], and with its names makes a session that is [session_ok]. *)
Lemma load_dataset_loaded (dir : string) (s : state) (f : list line) :
  read (os_path_join dir "table_tests.jsonl") (disk s) = Some f ->
  well_formed f ->
  exists D,
    load_dataset dir s = (Ok (D, keys D), s) /\
    loaded D /\
    session_ok (with_ALL_PDFS (keys D) (with_PDF_TESTS D s)).
Proof.
  intros R W. exists (group (records_of f) []).
  split; [now apply load_dataset_run|].
  assert (L : loaded (group (records_of f) [])).
  { apply group_loaded. apply loaded_nil. }
  split; [exact L|]. split; [reflexivity|]. simpl.
  split; [apply L | now apply loaded_named].
Qed.

(** ** Saving across filesystems *)

Lemma save_dataset_run (p : path) (s : state) :
  read (temp_path s) (disk s) = None ->
  exists s2,
    save_dataset p s = shutil_move (temp_path s) p s2 /\
    off_disk s2 = off_disk s /\
    read (temp_path s) (disk s2)
      = Some (map json_dumps_line (all_tests_of (PDF_TESTS s))) /\
    forall q, path_eqb (temp_path s) q = false ->
              read q (disk s2) = read q (disk s).
Proof.
  intros F.
  set (s1 := with_disk (write (temp_path s) [] (disk s)) s).
  destruct (write_all (temp_path s) (all_tests_of (PDF_TESTS s)) s1 [])
    as [s2 [R2 [G2 [T2 O2]]]].
  { simpl. apply read_write_same. }
  exists s2. split; [|split; [|split]].
  - unfold save_dataset, bind at 1, get_state at 1. cbn beta iota.
    unfold bind at 1. unfold NamedTemporaryFile, bind at 1, get_state at 1.
    cbn beta iota. fold (temp_path s). rewrite F.
    unfold bind at 1, modify at 1, ret at 1. cbn beta iota. fold s1.
    unfold bind at 1. rewrite R2. reflexivity.
  - rewrite G2. reflexivity.
  - exact T2.
  - intros q N. rewrite (O2 q N). simpl. now apply read_write_other.
Qed.

Lemma shutil_move_copies (src dst : path) (s : state) (c : list line) :
  read src (disk s) = Some c ->
  path_eqb src dst = false ->
  st_dev (dirname src) (mounts s) <> st_dev (dirname dst) (mounts s) ->
  exists s',
    shutil_move src dst s = (Ok tt, s') /\
    In (write dst [] (disk s)) (past s').
Proof.
  intros H N X. apply Z.eqb_neq in X.
  unfold shutil_move, try_except, os_rename, bind, get_state. cbn beta iota.
  rewrite H, X.
  unfold raise. cbn. unfold shutil_copy2, os_unlink, bind, get_state, modify.
  cbn beta iota. rewrite H. cbn [disk with_disk].
  rewrite !read_write_other by (now rewrite path_eqb_sym). rewrite H.
  eexists. split; [reflexivity|]. simpl. auto.
Qed.

(** Whenever the temporary directory and the directory of the record file
    are on two filesystems, a successful [save_dataset] has gone through a
    disk on which the record file was empty. *)
Lemma save_dataset_across_filesystems (p : path) (s : state) :
  read (temp_path s) (disk s) = None ->
  path_eqb (temp_path s) p = false ->
  st_dev (tempdir s) (mounts s) <> st_dev (dirname p) (mounts s) ->
  exists s' d,
    save_dataset p s = (Ok tt, s') /\
    In d (past s') /\
    read p d = Some [].
Proof.
  intros F N X.
  destruct (save_dataset_run p s F) as [s2 [R [G [T _]]]].
  assert (M : mounts s2 = mounts s).
  { unfold off_disk in G. now inversion G. }
  destruct (shutil_move_copies (temp_path s) p s2 _ T N) as [s' [R' I]].
  { rewrite M. exact X. }
  exists s', (write p [] (disk s2)). rewrite R.
  split; [exact R'|]. split; [exact I|]. apply read_write_same.
Qed.

(** ** The scenarios of the specification, evaluated *)

(** Documents [A] (two records, unchecked) then [B] (one record,
    verified): the next unchecked document is [A]. *)
Example scenario_next_is_A :
  fst (find_next_unchecked_pdf sample_state) = Ok (KStr "A").
Proof. reflexivity. Qed.

(** After the two records of [A] are set to verified and saved, none
    is left. *)
Example scenario_all_done :
  fst ((update_test (JStr "A") (JInt 1) "checked" (JStr "verified") ;;
        update_test (JStr "A") (JInt 2) "checked" (JStr "verified") ;;
        find_next_unchecked_pdf) sample_state) = Ok KNone.
Proof. reflexivity. Qed.

(** [goto_pdf(5)] with two documents leaves the cursor on [A]. *)
Example scenario_goto_out_of_range :
  CURRENT_PDF (snd (goto_pdf 5 sample_state)) = KStr "A".
Proof. reflexivity. Qed.

(** A line that does not decode, then a record of [doc1]: the load
    succeeds, the index has [doc1] only, and a warning was printed. *)
Example scenario_bad_line_then_record :
  let doc1 : record := [("pdf", JStr "doc1"); ("id", JInt 1)] in
  load_lines [Raw "{not json"; Json (JDict doc1)] [] unnamed_state =
  (Ok [(KStr "doc1", [doc1])],
   with_stdout ["Warning: Could not parse line as JSON: {not json"%string]
     unnamed_state).
Proof. reflexivity. Qed.

(** C1. On the small dataset, with [/tmp] and [/data] on two filesystems:
    [save_dataset] makes its temporary file in [/tmp], not beside the
    record file; [os.rename] onto the record file is refused; the call
    still succeeds, through a copy that first empties the record file,
    and an observer can see the record file empty: neither with the
    content it had nor with the content being saved. *)
Theorem save_dataset_empties_the_record_file :
  let target := dataset_file sample_state in
  let old := sample_stream in
  let new := map json_dumps_line (all_tests_of (PDF_TESTS sample_state)) in
  let run := save_dataset target sample_state in
  read target (disk sample_state) = Some old /\
  dirname (temp_path sample_state) = "/tmp"%string /\
  dirname target = "/data"%string /\
  st_dev "/tmp" (mounts sample_state) <> st_dev "/data" (mounts sample_state) /\
  fst ((temp_file <- NamedTemporaryFile ;; os_rename temp_file target)
         sample_state) = Raise OSError /\
  fst run = Ok tt /\
  read target (disk (snd run)) = Some new /\
  exists d,
    In d (past (snd run)) /\
    read target d = Some [] /\
    read target d <> Some old /\
    read target d <> Some new.
Proof.
  cbv zeta.
  split; [vm_compute; reflexivity|].
  split; [reflexivity|]. split; [reflexivity|].
  split; [vm_compute; discriminate|].
  split; [vm_compute; reflexivity|].
  split; [vm_compute; reflexivity|].
  split; [vm_compute; reflexivity|].
  exists (nth 1 (past (snd (save_dataset (dataset_file sample_state)
                              sample_state))) []).
  split; [vm_compute; right; left; reflexivity|].
  split; [vm_compute; reflexivity|].
  split; vm_compute; discriminate.
Qed.

(** * The claims *)



(** C3, as stated, fails: an edit of the field [id] (or of [pdf]) succeeds
    and is saved, but after a reload no record is found under the pair the
    edit was addressed to. *)
Lemma edit_of_id_or_pdf_is_not_found_again :
  find_test (PDF_TESTS sample_state) (KStr "A") (JInt 1) = Some rec_a1 /\
  (let run := update_test (JStr "A") (JInt 1) "id" (JInt 9) sample_state in
   fst run = Ok success /\
   exists D names,
     fst (load_dataset "/data" (snd run)) = Ok (D, names) /\
     find_test D (KStr "A") (JInt 1) = None) /\
  (let run := update_test (JStr "B") (JInt 1) "pdf" (JStr "C") sample_state in
   fst run = Ok success /\
   exists D names,
     fst (load_dataset "/data" (snd run)) = Ok (D, names) /\
     find_test D (KStr "B") (JInt 1) = None).
Proof.
  split; [reflexivity|]. split.
  - split; [reflexivity|]. eexists. eexists. split; reflexivity.
  - split; [reflexivity|]. eexists. eexists. split; reflexivity.
Qed.

(** C3, amended. Edit durability: in an index as [load_dataset] builds it,
    when a record matches the pair (pdf, id) and the field edited is
    neither [pdf] nor [id], then after [update_test] succeeded, loading the
    saved file again and looking up the same pair yields a record whose
    field has the new value. *)
Theorem edit_durability (s s' : state) (pdf_name test_id : json)
    (field : string) (value : json) (k : key) (r : record) (resp : response) :
  loaded (PDF_TESTS s) ->
  hash_key pdf_name = Some k ->
  find_test (PDF_TESTS s) k test_id = Some r ->
  field <> "pdf" -> field <> "id" ->
  update_test pdf_name test_id field value s = (Ok resp, s') ->
  exists D names s2 r',
    load_dataset (DATASET_DIR s') s' = (Ok (D, names), s2) /\
    find_test D k test_id = Some r' /\
    dict_get field r' = Some value.
Proof.
  intros L H Fd Np Ni U.
  destruct (update_test_inv _ _ _ _ _ _ _ U) as [k' [H' F]].
  destruct (update_test_ok pdf_name test_id field value s k H F)
    as [s1 [U1 [G T]]].
  rewrite U in U1. inversion U1; subst s1 resp. clear U1.
  inversion G as [[G1 G2 G3 G4 G5 G6 G7 G8]]. simpl in G3.
  assert (L' : loaded (PDF_TESTS s')).
  { rewrite G3. now apply loaded_update. }
  unfold dataset_file in T. rewrite <- G1 in T.
  rewrite (load_dataset_run _ _ _ T)
    by (apply dumps_well_formed; now apply loaded_records).
  rewrite records_of_dumps. rewrite (loaded_group _ [] L'). simpl.
  exists (PDF_TESTS s'), (keys (PDF_TESTS s')), s', (dict_set field value r).
  split; [reflexivity|]. split; [|apply dict_get_set_same].
  unfold find_test in *. rewrite G3, pdf_get_update, key_eqb_refl.
  destruct (pdf_get k (PDF_TESTS s)) as [l|]; [|discriminate]. simpl.
  now apply find_set_first.
Qed.

Lemma edit_durability_witness :
  exists D names s2 r',
    load_dataset "/data"
      (snd (update_test (JStr "A") (JInt 2) "text" (JStr "Revenue")
              sample_state)) = (Ok (D, names), s2) /\
    find_test D (KStr "A") (JInt 2) = Some r' /\
    dict_get "text" r' = Some (JStr "Revenue").
Proof.
  apply (edit_durability sample_state
           (snd (update_test (JStr "A") (JInt 2) "text" (JStr "Revenue")
                   sample_state))
           (JStr "A") (JInt 2) "text" (JStr "Revenue") (KStr "A") rec_a2
           success).
  - split; [repeat constructor; simpl; intuition discriminate|].
    repeat constructor.
  - reflexivity.
  - reflexivity.
  - discriminate.
  - discriminate.
  - vm_compute. reflexivity.
Defined.

(** C4. [find_next_unchecked_pdf] scans the names in order and returns the
    first document that has a record whose [checked] is unset (absent or
    null), without changing the session; it returns a name exactly when
    some record of the index has [checked] unset, and [None] exactly when
    every record has [checked] set to a value other than null. *)
Theorem find_next_unchecked_pdf_spec (s : state) :
  session_ok s ->
  exists r,
    find_next_unchecked_pdf s = (Ok r, s) /\
    (r <> KNone ->
     exists before after,
       ALL_PDFS s = before ++ r :: after /\
       has_unchecked (PDF_TESTS s) r /\
       forall name, In name before -> ~ has_unchecked (PDF_TESTS s) name) /\
    (r <> KNone <-> exists name, has_unchecked (PDF_TESTS s) name) /\
    (r = KNone <->
     forall name tests test,
       In (name, tests) (PDF_TESTS s) -> In test tests ->
       get "checked" test <> JNull).
Proof.
  intros Hs. pose proof Hs as [Ha [Hn Hk]].
  pose proof (find_next_unchecked_pdf_run s Hs) as Fr.
  pose proof (first_unchecked_cases (PDF_TESTS s) Hk) as C.
  remember (first_unchecked (PDF_TESTS s)) as r eqn:Er. clear Er.
  exists r. split; [exact Fr|].
  destruct C as [[R F]|[R [D1 [l [D2 [HD [U F]]]]]]].
  - assert (A : forall name tests test,
               In (name, tests) (PDF_TESTS s) -> In test tests ->
               get "checked" test <> JNull).
    { intros name tests test I J. rewrite Forall_forall in F.
      pose proof (F _ I) as E. simpl in E.
      rewrite existsb_unchecked_false in E. now apply E. }
    split; [congruence|]. split; [|tauto].
    split; [congruence|]. intros [name [tests [test [I [J C]]]]].
    exfalso. now apply (A name tests test).
  - apply existsb_exists in U. destruct U as [t [It Ut]].
    apply unchecked_iff in Ut.
    assert (X : has_unchecked (PDF_TESTS s) r).
    { exists l, t. split; [|auto]. rewrite HD.
      apply in_or_app. right. now left. }
    split; [|split].
    + intros _. exists (keys D1), (keys D2). split; [|split; [exact X|]].
      * rewrite Ha, HD. unfold keys. now rewrite map_app.
      * intros name I [tests [test [J [Jt C]]]].
        rewrite HD in J, Hn. apply (In_distinct_prefix D1 _ _ _ Hn I) in J.
        rewrite Forall_forall in F. pose proof (F _ J) as E. simpl in E.
        rewrite existsb_unchecked_false in E. now apply (E test).
    + split; [intros _; eexists; exact X | intros _; exact R].
    + split; [congruence|]. intros A. exfalso.
      destruct X as [tests [test [I [J C]]]]. now apply (A _ _ _ I J).
Qed.

Lemma find_next_unchecked_pdf_spec_witness :
  exists r,
    find_next_unchecked_pdf sample_state = (Ok r, sample_state) /\
    (r <> KNone ->
     exists before after,
       ALL_PDFS sample_state = before ++ r :: after /\
       has_unchecked (PDF_TESTS sample_state) r /\
       forall name, In name before ->
                    ~ has_unchecked (PDF_TESTS sample_state) name) /\
    (r <> KNone <-> exists name, has_unchecked (PDF_TESTS sample_state) name) /\
    (r = KNone <->
     forall name tests test,
       In (name, tests) (PDF_TESTS sample_state) -> In test tests ->
       get "checked" test <> JNull).
Proof.
  apply (find_next_unchecked_pdf_spec sample_state).
  split; [reflexivity|]. split.
  - repeat constructor; simpl; intuition discriminate.
  - simpl. intuition discriminate.
Defined.

(** C5, as stated, fails: with a cursor naming a document that is not in
    the list, [prev_pdf] leaves the cursor where it is (and so does the
    page [index] it redirects to) and [goto_pdf] goes to the document asked
    for, while [find_next_unchecked_pdf] would have selected [A]. *)
Lemma stale_cursor_prev_and_goto_do_not_search :
  py_in (CURRENT_PDF sample_stale) (ALL_PDFS sample_stale) = false /\
  fst (find_next_unchecked_pdf sample_stale) = Ok (KStr "A") /\
  prev_pdf sample_stale = (Ok (Redirect "index"), sample_stale) /\
  CURRENT_PDF (snd (prev_pdf sample_stale)) = KStr "Z" /\
  CURRENT_PDF (snd ((prev_pdf ;; index) sample_stale)) = KStr "Z" /\
  CURRENT_PDF (snd (goto_pdf 1 sample_stale)) = KStr "B".
Proof. repeat split. Qed.

(** C5, amended. When the cursor names a document that is not in the
    ordered list, [next_pdf] falls back to [find_next_unchecked_pdf];
    [prev_pdf] leaves the session as it is; [goto_pdf] does not look at the
    cursor: it moves to the document at the index when the index is in
    range and leaves the session as it is otherwise. *)
Theorem stale_cursor_navigation (s : state) :
  py_in (CURRENT_PDF s) (ALL_PDFS s) = false ->
  (exists r s',
     find_next_unchecked_pdf s = (Ok r, s') /\
     next_pdf s = (Ok (Redirect "index"), with_CURRENT_PDF r s')) /\
  prev_pdf s = (Ok (Redirect "index"), s) /\
  (forall i,
     goto_pdf i s =
     (Ok (Redirect "index"),
      if (0 <=? i) && (i <? len (ALL_PDFS s))
      then match nth_error (ALL_PDFS s) (Z.to_nat i) with
           | Some x => with_CURRENT_PDF x s
           | None => s
           end
      else s)).
Proof.
  intros H. split; [|split].
  - destruct (scan_pdfs_total (ALL_PDFS s) s) as [r [s' [R _]]].
    exists r, s'.
    assert (F : find_next_unchecked_pdf s = (Ok r, s')) by exact R.
    split; [exact F|].
    unfold next_pdf, bind at 1, get_state at 1. cbn beta iota.
    rewrite H. unfold bind at 1. unfold bind at 1. rewrite F. reflexivity.
  - unfold prev_pdf, bind at 1, get_state at 1. cbn beta iota.
    rewrite H. reflexivity.
  - intros i. unfold goto_pdf, bind at 1, get_state at 1. cbn beta iota.
    destruct ((0 <=? i) && (i <? len (ALL_PDFS s))) eqn:E; [|reflexivity].
    unfold bind at 1. unfold bind at 1. unfold list_getitem, getitem.
    rewrite E.
    destruct (nth_error (ALL_PDFS s) (Z.to_nat i)) eqn:N; [reflexivity|].
    exfalso. apply nth_error_None in N. unfold len in E.
    apply andb_true_iff in E. destruct E as [E1 E2].
    apply Z.leb_le in E1. apply Z.ltb_lt in E2. lia.
Qed.

Lemma stale_cursor_navigation_witness :
  (exists r s',
     find_next_unchecked_pdf sample_stale = (Ok r, s') /\
     next_pdf sample_stale = (Ok (Redirect "index"), with_CURRENT_PDF r s')) /\
  prev_pdf sample_stale = (Ok (Redirect "index"), sample_stale) /\
  (forall i,
     goto_pdf i sample_stale =
     (Ok (Redirect "index"),
      if (0 <=? i) && (i <? len (ALL_PDFS sample_stale))
      then match nth_error (ALL_PDFS sample_stale) (Z.to_nat i) with
           | Some x => with_CURRENT_PDF x sample_stale
           | None => sample_stale
           end
      else sample_stale)).
Proof. apply (stale_cursor_navigation sample_stale). reflexivity. Defined.







(** C8, as stated, fails: a record that has a [pdf] field, the empty
    string, is not appended to any sequence, and its name does not enter
    the list of names. *)
Lemma record_with_empty_pdf_is_not_indexed :
  dict_get "pdf" rec_unnamed = Some (JStr EmptyString) /\
  load_dataset "/data" unnamed_state = (Ok ([], []), unnamed_state).
Proof. split; reflexivity. Qed.

(** C8, amended. [load_dataset] goes through the file line by line, and
    for each line goes on with the lines after it: a line that does not
    decode is skipped with a warning; a decoded record that has no [pdf]
    field, or a falsy one, is dropped without a word; a record whose [pdf]
    is a name (truthy, a scalar) is appended to the sequence of that
    document, which is created with its name entered last among the names
    the first time the name is seen, and only then; the other documents
    are left alone.  The ordered name list returned is the list of the
    names of the index. *)
Theorem load_dataset_line_by_line (l : line) (f : list line) (D : pdf_dict)
    (s : state) :
  (forall text, l = Raw text -> strip text <> EmptyString ->
     load_lines (l :: f) D s =
     load_lines f D
       (with_stdout
          (stdout s ++
           [("Warning: Could not parse line as JSON: " ++ strip text)%string])
          s)) /\
  (forall test, l = Json (JDict test) ->
     dict_get "pdf" test = None \/ truthy (get "pdf" test) = false ->
     load_lines (l :: f) D s = load_lines f D s) /\
  (forall test k, l = Json (JDict test) ->
     truthy (get "pdf" test) = true -> hash_key (get "pdf" test) = Some k ->
     load_lines (l :: f) D s = load_lines f (pdf_append k test D) s /\
     match pdf_get k D with
     | Some tests =>
         pdf_get k (pdf_append k test D) = Some (tests ++ [test]) /\
         keys (pdf_append k test D) = keys D
     | None =>
         pdf_get k (pdf_append k test D) = Some [test] /\
         keys (pdf_append k test D) = keys D ++ [k]
     end /\
     forall k0, key_eqb k k0 = false ->
                pdf_get k0 (pdf_append k test D) = pdf_get k0 D) /\
  (forall dir pdf_tests all_pdfs s',
     load_dataset dir s = (Ok (pdf_tests, all_pdfs), s') ->
     all_pdfs = keys pdf_tests).
Proof.
  split; [|split; [|split]].
  - intros text -> N. rewrite load_lines_cons. simpl.
    apply String.eqb_neq in N. rewrite N. reflexivity.
  - intros test -> H. rewrite load_lines_cons. simpl.
    assert (T : truthy (get "pdf" test) = false).
    { destruct H as [H|H]; [|exact H]. unfold get. now rewrite H. }
    now rewrite T.
  - intros test k -> T H. split; [|split].
    + rewrite load_lines_cons. simpl. now rewrite T, H.
    + destruct (pdf_get k D) as [tests|] eqn:G.
      * destruct (pdf_append_known k test D tests G) as [_ [A B]]. auto.
      * destruct (pdf_append_new k test D G) as [_ [A B]]. auto.
    + intros k0 N. now apply pdf_append_other.
  - intros dir pdf_tests all_pdfs s'.
    unfold load_dataset, bind at 1, get_state at 1. cbn beta iota.
    destruct (read _ (disk s)) as [c|]; [|discriminate].
    unfold bind. destruct (load_lines c [] s) as [[D'|e] s1]; [|discriminate].
    unfold ret. intros E. now inversion E.
Qed.

Lemma load_dataset_line_by_line_witness :
  load_lines [Raw "{oops"; Json (JDict rec_a1)] [] sample_state =
    load_lines [Json (JDict rec_a1)] []
      (with_stdout ["Warning: Could not parse line as JSON: {oops"%string]
         sample_state) /\
  load_lines [Json (JDict [("id", JInt 3)]); Json (JDict rec_a1)] []
    sample_state = load_lines [Json (JDict rec_a1)] [] sample_state /\
  load_lines [Json (JDict rec_a2)] [(KStr "A", [rec_a1])] sample_state =
    load_lines [] (pdf_append (KStr "A") rec_a2 [(KStr "A", [rec_a1])])
      sample_state /\
  keys (pdf_append (KStr "B") rec_b1 [(KStr "A", [rec_a1])]) =
    [KStr "A"; KStr "B"].
Proof.
  split; [|split; [|split]].
  - destruct (load_dataset_line_by_line (Raw "{oops") [Json (JDict rec_a1)]
                [] sample_state) as [H _].
    apply (H "{oops"%string); [reflexivity | discriminate].
  - destruct (load_dataset_line_by_line (Json (JDict [("id", JInt 3)]))
                [Json (JDict rec_a1)] [] sample_state) as [_ [H _]].
    apply (H [("id", JInt 3)]); [reflexivity | now left].
  - destruct (load_dataset_line_by_line (Json (JDict rec_a2)) []
                [(KStr "A", [rec_a1])] sample_state) as [_ [_ [H _]]].
    apply (H rec_a2 (KStr "A")); reflexivity.
  - destruct (load_dataset_line_by_line (Json (JDict rec_b1)) []
                [(KStr "A", [rec_a1])] sample_state)
      as [_ [_ [H _]]].
    destruct (H rec_b1 (KStr "B") eq_refl eq_refl eq_refl) as [_ [[_ K] _]].
    exact K.
Defined.

(** C10. A decoded record whose [pdf] is present but falsy (the empty
    string, null, 0, false) is dropped just as a record without [pdf]:
    the index, hence the list of names, and the output are as before; and
    a blank line is skipped without a warning. *)
Theorem load_drops_falsy_pdf_and_blank (f : list line) (D : pdf_dict)
    (s : state) :
  (forall v, In v [JStr EmptyString; JNull; JInt 0; JBool false] -> truthy v = false) /\
  (forall test v, dict_get "pdf" test = Some v -> truthy v = false ->
     load_line (Json (JDict test)) D s = (Ok D, s) /\
     load_lines (Json (JDict test) :: f) D s = load_lines f D s /\
     forall test', dict_get "pdf" test' = None ->
       load_line (Json (JDict test')) D s = load_line (Json (JDict test)) D s) /\
  (forall text,
     (forall c, In c (list_ascii_of_string text) -> isspace c = true) ->
     load_line (Raw text) D s = (Ok D, s) /\
     load_lines (Raw text :: f) D s = load_lines f D s).
Proof.
  split; [|split].
  - intros v [<-|[<-|[<-|[<-|[]]]]]; reflexivity.
  - intros test v H T.
    assert (E : load_line (Json (JDict test)) D s = (Ok D, s)).
    { simpl. unfold get. now rewrite H, T. }
    split; [exact E|]. split.
    + rewrite load_lines_cons. now rewrite E.
    + intros test' H'. rewrite E. simpl. unfold get. now rewrite H'.
  - intros text H.
    assert (E : load_line (Raw text) D s = (Ok D, s)).
    { simpl. now rewrite strip_blank. }
    split; [exact E|]. rewrite load_lines_cons. now rewrite E.
Qed.

Lemma load_drops_falsy_pdf_and_blank_witness :
  load_lines [Json (JDict rec_unnamed); Raw "  "; Json (JDict rec_a1)] []
    sample_state =
  load_lines [Json (JDict rec_a1)] [] sample_state.
Proof.
  destruct (load_drops_falsy_pdf_and_blank
              [Raw "  "; Json (JDict rec_a1)] [] sample_state)
    as [_ [H _]].
  destruct (H rec_unnamed (JStr EmptyString) eq_refl eq_refl) as [_ [-> _]].
  destruct (load_drops_falsy_pdf_and_blank
              [Json (JDict rec_a1)] [] sample_state)
    as [_ [_ B]].
  apply B. intros c [<-|[<-|[]]]; reflexivity.
Defined.

(** * Further properties *)

(** ** [load_dataset] on any file *)

Lemma with_stdout_nil (s : state) : with_stdout (stdout s ++ []) s = s.
Proof. destruct s. simpl. now rewrite app_nil_r. Qed.

Lemma with_stdout_app (s : state) (a b : list string) :
  with_stdout (stdout (with_stdout (stdout s ++ a) s) ++ b)
    (with_stdout (stdout s ++ a) s)
  = with_stdout (stdout s ++ a ++ b) s.
Proof. destruct s. simpl. now rewrite app_assoc. Qed.

Lemma group_app (a b : list record) :
  forall D, group (a ++ b) D = group b (group a D).
Proof.
  induction a as [|t a IH]; intros D; simpl; [reflexivity|].
  destruct (doc_of t); apply IH.
Qed.

Lemma records_of_cons (l : line) (f : list line) :
  records_of (l :: f) = records_of [l] ++ records_of f.
Proof. unfold records_of. simpl. now rewrite app_nil_r. Qed.

Lemma load_line_loadable (l : line) (D : pdf_dict) (s : state) :
  loadable l = true ->
  load_line l D s =
  (Ok (group (records_of [l]) D), with_stdout (stdout s ++ warning_of l) s).
Proof.
  destruct l as [text|v]; simpl.
  - intros _. destruct (String.eqb (strip text) EmptyString).
    + now rewrite with_stdout_nil.
    + reflexivity.
  - destruct v as [| | | | |t]; try discriminate.
    intros H. rewrite with_stdout_nil.
    destruct (truthy (get "pdf" t)) eqn:T; simpl in H.
    + destruct (hash_key (get "pdf" t)) as [k|] eqn:K; [|discriminate].
      cbn [app group]. unfold doc_of. now rewrite T, K.
    + cbn [app group]. unfold doc_of. now rewrite T.
Qed.

Lemma load_line_not_loadable (l : line) (D : pdf_dict) (s : state) :
  loadable l = false -> load_line l D s = (Raise (exception_of l), s).
Proof.
  destruct l as [text|v]; simpl; [discriminate|].
  destruct v as [| | | | |t]; try reflexivity.
  destruct (truthy (get "pdf" t)); simpl; [|discriminate].
  destruct (hash_key (get "pdf" t)); [discriminate | reflexivity].
Qed.

Lemma load_lines_loadable (f : list line) :
  Forall (fun l => loadable l = true) f ->
  forall D s,
  load_lines f D s =
  (Ok (group (records_of f) D), with_stdout (stdout s ++ warnings_of f) s).
Proof.
  induction 1 as [|l f Hl Hf IH]; intros D s.
  - simpl. now rewrite with_stdout_nil.
  - rewrite load_lines_cons, (load_line_loadable l D s Hl), IH.
    unfold warnings_of. simpl flat_map. fold (warnings_of f).
    rewrite with_stdout_app.
    now rewrite (records_of_cons l f), group_app.
Qed.

Lemma load_lines_app (f1 f2 : list line) :
  forall D s,
  load_lines (f1 ++ f2) D s =
  match load_lines f1 D s with
  | (Ok D', s') => load_lines f2 D' s'
  | (Raise e, s') => (Raise e, s')
  end.
Proof.
  induction f1 as [|l f1 IH]; intros D s; [reflexivity|].
  simpl app. rewrite !load_lines_cons.
  destruct (load_line l D s) as [[D'|e] s']; [apply IH | reflexivity].
Qed.

Lemma first_bad_line (f : list line) :
  Forall (fun l => loadable l = true) f \/
  exists f1 l f2,
    f = f1 ++ l :: f2 /\
    Forall (fun l => loadable l = true) f1 /\
    loadable l = false.
Proof.
  induction f as [|l f IH]; [left; constructor|].
  destruct (loadable l) eqn:E.
  - destruct IH as [IH|[f1 [l' [f2 [-> [H1 H2]]]]]].
    + left. now constructor.
    + right. exists (l :: f1), l', f2. split; [reflexivity|].
      split; [now constructor | assumption].
  - right. exists [], l, f. split; [reflexivity|]. split; [constructor|exact E].
Qed.

Lemma load_dataset_unfold (dir : string) (s : state) :
  load_dataset dir s =
  match read (os_path_join dir "table_tests.jsonl") (disk s) with
  | None => (Raise FileNotFoundError, s)
  | Some f =>
      match load_lines f [] s with
      | (Ok D, s') => (Ok (D, keys D), s')
      | (Raise e, s') => (Raise e, s')
      end
  end.
Proof.
  unfold load_dataset, bind at 1, get_state at 1. cbn beta iota.
  destruct (read _ (disk s)) as [f|]; [|reflexivity].
  unfold bind. destruct (load_lines f [] s) as [[D|e] s']; reflexivity.
Qed.

(** X1. On a file whose lines all get through, [load_dataset] returns the
    index obtained by filing, in order, the records that name a document,
    with the names in order of first appearance; it prints one warning per
    line that is neither blank nor decodable, in order, and changes nothing
    else. *)
Theorem load_dataset_on_loadable_file (dir : string) (s : state)
    (f : list line) :
  read (os_path_join dir "table_tests.jsonl") (disk s) = Some f ->
  Forall (fun l => loadable l = true) f ->
  load_dataset dir s =
  (Ok (group (records_of f) [], keys (group (records_of f) [])),
   with_stdout (stdout s ++ warnings_of f) s).
Proof.
  intros R H. rewrite load_dataset_unfold, R.
  now rewrite (load_lines_loadable f H).
Qed.

Lemma load_dataset_on_loadable_file_witness :
  load_dataset "/data" noisy_state
  = (Ok ([(KStr "A", [rec_a1])], [KStr "A"]),
     with_stdout ["Warning: Could not parse line as JSON: {oops"%string]
       noisy_state).
Proof.
  assert (H : Forall (fun l => loadable l = true) noisy_stream)
    by (repeat constructor).
  exact (load_dataset_on_loadable_file "/data" noisy_state noisy_stream
           eq_refl H).
Defined.

(** X2. The first line that decodes to something other than an object, or
    to an object whose [pdf] is a non-empty list or object, ends the load:
    [AttributeError] in the first case, [TypeError] in the second, whatever
    the lines after it; the warnings of the lines before it have been
    printed and nothing is returned. *)
Theorem load_dataset_stops_at_first_bad_line (dir : string) (s : state)
    (f1 f2 : list line) (l : line) :
  read (os_path_join dir "table_tests.jsonl") (disk s)
    = Some (f1 ++ l :: f2) ->
  Forall (fun l => loadable l = true) f1 ->
  loadable l = false ->
  load_dataset dir s =
  (Raise (exception_of l), with_stdout (stdout s ++ warnings_of f1) s).
Proof.
  intros R H1 Hl. rewrite load_dataset_unfold, R.
  rewrite load_lines_app, (load_lines_loadable f1 H1).
  rewrite load_lines_cons, load_line_not_loadable by exact Hl. reflexivity.
Qed.

Lemma load_dataset_stops_at_first_bad_line_witness :
  load_dataset "/data" broken_state = (Raise AttributeError, broken_state).
Proof.
  assert (H : Forall (fun l => loadable l = true) [Json (JDict rec_a1)])
    by (repeat constructor).
  exact (load_dataset_stops_at_first_bad_line "/data" broken_state
           [Json (JDict rec_a1)] [Json (JDict rec_b1)] (Json (JList [JInt 1]))
           eq_refl H eq_refl).
Defined.

(** X3. [load_dataset] returns normally exactly when the record file exists
    and each of its lines either fails to decode or decodes to an object
    whose [pdf] is falsy or a scalar. *)
Theorem load_dataset_succeeds_iff (dir : string) (s : state) :
  (exists r s', load_dataset dir s = (Ok r, s')) <->
  (exists f,
     read (os_path_join dir "table_tests.jsonl") (disk s) = Some f /\
     Forall (fun l => loadable l = true) f).
Proof.
  split.
  - intros [r [s' H]]. rewrite load_dataset_unfold in H.
    destruct (read _ (disk s)) as [f|] eqn:R; [|discriminate].
    exists f. split; [reflexivity|].
    destruct (first_bad_line f) as [A|[f1 [l [f2 [-> [H1 Hl]]]]]]; [exact A|].
    exfalso. rewrite load_lines_app, (load_lines_loadable f1 H1) in H.
    rewrite load_lines_cons, load_line_not_loadable in H by exact Hl.
    discriminate.
  - intros [f [R H]]. eexists. eexists.
    exact (load_dataset_on_loadable_file dir s f R H).
Qed.

(** ** The index [load_dataset] returns *)

Lemma group_permutation_any (tests : list record) :
  forall D,
  Permutation (all_tests_of (group tests D))
              (all_tests_of D ++ filter has_doc tests).
Proof.
  induction tests as [|t tests IH]; intros D; simpl.
  - rewrite app_nil_r. apply Permutation_refl.
  - unfold has_doc at 1. destruct (doc_of t) as [k|].
    + eapply Permutation_trans; [apply IH|].
      change (t :: filter has_doc tests) with ([t] ++ filter has_doc tests).
      rewrite app_assoc. apply Permutation_app_tail. apply all_tests_append.
    + apply IH.
Qed.

Lemma group_filter_any (k0 : key) (tests : list record) :
  forall D, filed D ->
  filter (in_document k0) (all_tests_of (group tests D)) =
  filter (in_document k0) (all_tests_of D) ++ filter (in_document k0) tests.
Proof.
  induction tests as [|t tests IH]; intros D F.
  - simpl. now rewrite app_nil_r.
  - destruct (doc_of t) as [k|] eqn:E; cbn [group]; rewrite E.
    + rewrite IH by now apply filed_append.
      rewrite (filter_append k k0 t D F E). simpl filter.
      destruct (in_document k0 t); now rewrite <- app_assoc.
    + rewrite IH by assumption. simpl filter.
      assert (N : in_document k0 t = false)
        by (unfold in_document; now rewrite E).
      now rewrite N.
Qed.

(** X4. Whatever [load_dataset] returns is a well-shaped index: the names
    are pairwise different for Python's [==], none is falsy, no document
    is empty, every document holds records of its own name only, and the
    name list is the list of the keys.  It holds, as a multiset, exactly
    the records of the file that name a document, those of any one document
    in file order. *)
Theorem load_dataset_index_shape (dir : string) (s s' : state)
    (D : pdf_dict) (names : list key) :
  load_dataset dir s = (Ok (D, names), s') ->
  loaded D /\
  names = keys D /\
  session_ok (with_ALL_PDFS names (with_PDF_TESTS D s')) /\
  exists f,
    read (os_path_join dir "table_tests.jsonl") (disk s) = Some f /\
    Permutation (all_tests_of D) (filter has_doc (records_of f)) /\
    forall k, filter (in_document k) (all_tests_of D) =
              filter (in_document k) (records_of f).
Proof.
  intros H.
  assert (S : exists r s', load_dataset dir s = (Ok r, s')) by eauto.
  apply load_dataset_succeeds_iff in S. destruct S as [f [R L]].
  rewrite (load_dataset_on_loadable_file dir s f R L) in H.
  inversion H; subst. clear H.
  assert (Ld : loaded (group (records_of f) [])).
  { apply group_loaded. apply loaded_nil. }
  split; [exact Ld|]. split; [reflexivity|]. split.
  - split; [reflexivity|]. simpl.
    split; [apply Ld | now apply loaded_named].
  - exists f. split; [exact R|]. split.
    + apply (group_permutation_any (records_of f) []).
    + intros k. apply (group_filter_any k (records_of f) []).
      split; constructor.
Qed.

Lemma load_dataset_index_shape_witness :
  loaded [(KStr "A", [rec_a1])] /\
  [KStr "A"] = keys [(KStr "A", [rec_a1])] /\
  session_ok
    (with_ALL_PDFS [KStr "A"]
       (with_PDF_TESTS [(KStr "A", [rec_a1])]
          (with_stdout ["Warning: Could not parse line as JSON: {oops"%string]
             noisy_state))) /\
  exists f,
    read (os_path_join "/data" "table_tests.jsonl") (disk noisy_state)
      = Some f /\
    Permutation (all_tests_of [(KStr "A", [rec_a1])])
                (filter has_doc (records_of f)) /\
    forall k, filter (in_document k) (all_tests_of [(KStr "A", [rec_a1])]) =
              filter (in_document k) (records_of f).
Proof.
  exact (load_dataset_index_shape "/data" noisy_state _ _ _ eq_refl).
Defined.

(** ** Saving and loading again *)

(** X5. Saving an index of the shape [load_dataset] builds and loading the
    record file again returns that very index, with the same names in the
    same order, and prints nothing. *)
Theorem save_then_load_is_identity (s : state) :
  loaded (PDF_TESTS s) ->
  read (temp_path s) (disk s) = None ->
  exists s1,
    save_dataset (dataset_file s) s = (Ok tt, s1) /\
    load_dataset (DATASET_DIR s) s1 =
      (Ok (PDF_TESTS s, keys (PDF_TESTS s)), s1).
Proof.
  intros L F.
  destruct (save_dataset_ok (dataset_file s) s F
              (temp_is_not_dataset_file s (DATASET_DIR s)))
    as [s1 [S [G T]]].
  exists s1. split; [exact S|].
  unfold dataset_file in T.
  rewrite (load_dataset_run _ _ _ T)
    by (apply dumps_well_formed; now apply loaded_records).
  rewrite records_of_dumps. now rewrite (loaded_group _ [] L).
Qed.

Lemma save_then_load_is_identity_witness :
  exists s1,
    save_dataset (dataset_file sample_state) sample_state = (Ok tt, s1) /\
    load_dataset (DATASET_DIR sample_state) s1 =
      (Ok (PDF_TESTS sample_state, keys (PDF_TESTS sample_state)), s1).
Proof.
  apply (save_then_load_is_identity sample_state).
  - split; [repeat constructor; simpl; intuition discriminate|].
    repeat constructor.
  - reflexivity.
Defined.

(** ** What [save_dataset] does to the disk *)

Lemma write_all_observed (tmp : path) (tests : list record) :
  forall (s : state) (c : list line),
  read tmp (disk s) = Some c ->
  exists s' news,
    for_each tests (fun test => file_write tmp (json_dumps_line test)) s
      = (Ok tt, s') /\
    observed s' = news ++ observed s /\
    Forall (fun d => forall q, path_eqb tmp q = false ->
                               read q d = read q (disk s)) news.
Proof.
  induction tests as [|t tests IH]; intros s c H.
  - exists s, []. repeat split. constructor.
  - set (s1 := with_disk (write tmp (c ++ [json_dumps_line t]) (disk s)) s).
    destruct (IH s1 (c ++ [json_dumps_line t])) as [s' [news [R [O F]]]].
    { simpl. apply read_write_same. }
    exists s', (news ++ [disk s1]). split; [|split].
    + cbn [for_each]. unfold bind at 1. unfold file_write at 1.
      unfold bind at 1. unfold get_state at 1. cbn beta iota.
      rewrite H. unfold modify at 1. exact R.
    + rewrite O. rewrite <- app_assoc. reflexivity.
    + apply Forall_app. split.
      * eapply Forall_impl; [|exact F]. intros d Hd q N.
        rewrite (Hd q N). simpl. now apply read_write_other.
      * constructor; [|constructor]. intros q N. simpl.
        now apply read_write_other.
Qed.

Lemma shutil_move_on_one_filesystem (src dst : path) (s : state)
    (c : list line) :
  read src (disk s) = Some c ->
  st_dev (dirname src) (mounts s) = st_dev (dirname dst) (mounts s) ->
  shutil_move src dst s =
  (Ok tt, with_disk (write dst c (delete src (disk s))) s).
Proof.
  intros H E. apply Z.eqb_eq in E.
  unfold shutil_move, try_except, os_rename, bind, get_state. cbn beta iota.
  now rewrite H, E.
Qed.

Lemma shutil_move_others (src dst : path) (s s' : state) (c : list line) :
  read src (disk s) = Some c ->
  path_eqb src dst = false ->
  shutil_move src dst s = (Ok tt, s') ->
  forall q, path_eqb src q = false -> path_eqb dst q = false ->
            read q (disk s') = read q (disk s).
Proof.
  intros H N.
  assert (N' : path_eqb dst src = false) by now rewrite path_eqb_sym.
  unfold shutil_move, try_except, os_rename, bind, get_state. cbn beta iota.
  rewrite H.
  destruct (st_dev (dirname src) (mounts s) =? st_dev (dirname dst) (mounts s)).
  - intros E q Ns Nd. inversion E. simpl.
    now rewrite read_write_other, read_delete_other.
  - unfold raise. cbn. unfold shutil_copy2, os_unlink, bind, get_state, modify.
    cbn beta iota. rewrite H. cbn [disk with_disk].
    rewrite !read_write_other by assumption. rewrite H.
    intros E q Ns Nd. inversion E. simpl.
    now rewrite read_delete_other, !read_write_other.
Qed.

Lemma save_dataset_unfold (p : path) (s : state) :
  read (temp_path s) (disk s) = None ->
  save_dataset p s =
  match
    for_each (all_tests_of (PDF_TESTS s))
      (fun test => file_write (temp_path s) (json_dumps_line test))
      (with_disk (write (temp_path s) [] (disk s)) s)
  with
  | (Ok _, s2) => shutil_move (temp_path s) p s2
  | (Raise e, s2) => (Raise e, s2)
  end.
Proof.
  intros F. unfold save_dataset, bind at 1, get_state at 1. cbn beta iota.
  unfold bind at 1. unfold NamedTemporaryFile, bind at 1, get_state at 1.
  cbn beta iota. fold (temp_path s). rewrite F.
  unfold bind at 1, modify at 1, ret at 1. cbn beta iota.
  unfold bind at 1. reflexivity.
Qed.

(** X6. When the temporary directory is on the filesystem of the record
    file, [save_dataset] replaces the record file in one step: on every
    content the disk goes through before the last one the record file is
    as it was, and on the last it holds the whole new content. *)
Theorem save_dataset_atomic_on_one_filesystem (p : path) (s : state) :
  read (temp_path s) (disk s) = None ->
  path_eqb (temp_path s) p = false ->
  st_dev (tempdir s) (mounts s) = st_dev (dirname p) (mounts s) ->
  exists s' mids,
    save_dataset p s = (Ok tt, s') /\
    observed s' = disk s' :: mids ++ observed s /\
    Forall (fun d => read p d = read p (disk s)) mids /\
    read p (disk s') = Some (map json_dumps_line (all_tests_of (PDF_TESTS s))).
Proof.
  intros F N X.
  set (s0 := with_disk (write (temp_path s) [] (disk s)) s).
  destruct (write_all (temp_path s) (all_tests_of (PDF_TESTS s)) s0 [])
    as [s2 [R2 [G2 [T2 _]]]].
  { simpl. apply read_write_same. }
  destruct (write_all_observed (temp_path s) (all_tests_of (PDF_TESTS s)) s0 [])
    as [s2' [news [R2' [O2 F2]]]].
  { simpl. apply read_write_same. }
  rewrite R2 in R2'. inversion R2'; subst s2'. clear R2'.
  assert (M : mounts s2 = mounts s).
  { unfold off_disk in G2. now inversion G2. }
  rewrite (save_dataset_unfold p s F). fold s0. rewrite R2.
  rewrite (shutil_move_on_one_filesystem _ _ _ _ T2) by (rewrite M; exact X).
  eexists. exists (news ++ [disk s0]).
  split; [reflexivity|]. split; [|split].
  - unfold observed at 1. simpl disk. simpl past.
    change (disk s2 :: past s2) with (observed s2). rewrite O2.
    rewrite <- app_assoc. reflexivity.
  - apply Forall_app. split.
    + eapply Forall_impl; [|exact F2]. intros d Hd. rewrite (Hd p N).
      simpl. now apply read_write_other.
    + constructor; [|constructor]. simpl. now apply read_write_other.
  - simpl. apply read_write_same.
Qed.

Lemma save_dataset_atomic_on_one_filesystem_witness :
  exists s' mids,
    save_dataset (dataset_file one_fs_state) one_fs_state = (Ok tt, s') /\
    observed s' = disk s' :: mids ++ observed one_fs_state /\
    Forall (fun d => read (dataset_file one_fs_state) d
                     = read (dataset_file one_fs_state) (disk one_fs_state))
           mids /\
    read (dataset_file one_fs_state) (disk s')
      = Some (map json_dumps_line (all_tests_of (PDF_TESTS one_fs_state))).
Proof.
  apply (save_dataset_atomic_on_one_filesystem (dataset_file one_fs_state)
           one_fs_state); reflexivity.
Defined.

(** X7. A successful [save_dataset] leaves no temporary file behind,
    leaves every file other than the record file as it was, and changes
    neither the globals nor what was printed. *)
Theorem save_dataset_touches_the_record_file_only (p : path) (s : state) :
  read (temp_path s) (disk s) = None ->
  path_eqb (temp_path s) p = false ->
  exists s',
    save_dataset p s = (Ok tt, s') /\
    off_disk s' = off_disk s /\
    read (temp_path s) (disk s') = None /\
    forall q, path_eqb p q = false -> read q (disk s') = read q (disk s).
Proof.
  intros F N.
  destruct (save_dataset_run p s F) as [s2 [R [G [T O]]]].
  destruct (shutil_move_ok (temp_path s) p s2 _ T N) as [s' [R' [G' [_ T']]]].
  exists s'. rewrite R. split; [exact R'|].
  split; [now rewrite G', G|]. split; [exact T'|].
  intros q Nq. destruct (path_eqb (temp_path s) q) eqn:E.
  - apply path_eqb_eq in E. subst q. now rewrite T', F.
  - rewrite (shutil_move_others _ _ _ _ _ T N R' q E Nq). now apply O.
Qed.

Lemma save_dataset_touches_the_record_file_only_witness :
  exists s',
    save_dataset (dataset_file sample_state) sample_state = (Ok tt, s') /\
    off_disk s' = off_disk sample_state /\
    read (temp_path sample_state) (disk s') = None /\
    forall q, path_eqb (dataset_file sample_state) q = false ->
              read q (disk s') = read q (disk sample_state).
Proof.
  apply (save_dataset_touches_the_record_file_only
           (dataset_file sample_state) sample_state); reflexivity.
Defined.

(** ** What [update_test] changes *)

Lemma update_test_off_disk (pdf_name test_id : json) (field : string)
    (value : json) (s : state) (k : key) :
  hash_key pdf_name = Some k ->
  off_disk (snd (update_test pdf_name test_id field value s)) =
  off_disk (with_PDF_TESTS
              (pdf_update k (set_first test_id field value) (PDF_TESTS s)) s).
Proof.
  intros H. destruct (read (temp_path s) (disk s)) as [c|] eqn:F.
  - rewrite (update_test_run _ _ _ _ _ _ H).
    rewrite (save_dataset_exists _ _ c) by exact F. reflexivity.
  - destruct (update_test_ok pdf_name test_id field value s k H F)
      as [s' [U [G _]]].
    rewrite U. exact G.
Qed.

Lemma length_set_first (test_id : json) (field : string) (value : json)
    (tests : list record) :
  List.length (set_first test_id field value tests) = List.length tests.
Proof.
  induction tests as [|t tests IH]; simpl; [reflexivity|].
  destruct (py_eq (get "id" t) test_id); simpl; [reflexivity|].
  now rewrite IH.
Qed.

Lemma sizes_update (k : key) (f : list record -> list record) (D : pdf_dict) :
  (forall l, List.length (f l) = List.length l) ->
  sizes (pdf_update k f D) = sizes D.
Proof.
  intros Hf. unfold sizes. induction D as [|[k' l] D IH]; simpl; [reflexivity|].
  destruct (key_eqb k' k); simpl.
  - now rewrite Hf.
  - now rewrite IH.
Qed.

(** X8. Whatever it is called with and whether or not it succeeds,
    [update_test] neither adds nor removes a document or a record: the
    names of the index and the number of records of each document are as
    before (an unknown document name does not enter the index), and the
    ordered name list and the cursor are untouched. *)
Theorem update_test_keeps_documents_and_counts (pdf_name test_id : json)
    (field : string) (value : json) (s : state) :
  let s' := snd (update_test pdf_name test_id field value s) in
  keys (PDF_TESTS s') = keys (PDF_TESTS s) /\
  sizes (PDF_TESTS s') = sizes (PDF_TESTS s) /\
  ALL_PDFS s' = ALL_PDFS s /\
  CURRENT_PDF s' = CURRENT_PDF s.
Proof.
  intros s'. subst s'. destruct (hash_key pdf_name) as [k|] eqn:H.
  - pose proof (update_test_off_disk pdf_name test_id field value s k H) as G.
    unfold off_disk in G. inversion G as [[G1 G2 G3 G4 G5 G6 G7 G8]].
    simpl in *. rewrite G3, keys_update, sizes_update.
    + auto.
    + intros l. apply length_set_first.
  - rewrite update_test_unhashable by exact H. simpl. auto.
Qed.

Lemma dict_set_keys (name : string) (v : json) (d : record) :
  map fst (dict_set name v d) =
  match dict_get name d with
  | Some _ => map fst d
  | None => map fst d ++ [name]
  end.
Proof.
  induction d as [|[n w] d IH]; simpl; [reflexivity|].
  destruct (String.eqb n name); simpl; [reflexivity|].
  rewrite IH. now destruct (dict_get name d).
Qed.

(** X9. On the record it reaches, [update_test] sets the one field: the
    record then has the value under that name, every other field has the
    value it had, and the fields keep their order, a new name going last. *)
Theorem update_test_sets_one_field (s : state) (pdf_name test_id : json)
    (field : string) (value : json) (k : key)
    (before after : list record) (test : record) :
  hash_key pdf_name = Some k ->
  pdf_get k (PDF_TESTS s) = Some (before ++ test :: after) ->
  Forall (fun t => py_eq (get "id" t) test_id = false) before ->
  py_eq (get "id" test) test_id = true ->
  exists test',
    pdf_get k (PDF_TESTS (snd (update_test pdf_name test_id field value s)))
      = Some (before ++ test' :: after) /\
    dict_get field test' = Some value /\
    (forall name, name <> field -> dict_get name test' = dict_get name test) /\
    map fst test' =
      match dict_get field test with
      | Some _ => map fst test
      | None => map fst test ++ [field]
      end.
Proof.
  intros H G B T. exists (dict_set field value test).
  rewrite (update_test_PDF_TESTS _ _ _ _ _ _ H).
  rewrite pdf_get_update, key_eqb_refl, G. simpl.
  rewrite set_first_split by assumption.
  split; [reflexivity|]. split; [apply dict_get_set_same|].
  split; [|apply dict_set_keys].
  intros name N. apply dict_get_set_other. congruence.
Qed.

Lemma update_test_sets_one_field_witness :
  exists test',
    pdf_get (KStr "A")
      (PDF_TESTS (snd (update_test (JStr "A") (JInt 2) "checked"
                         (JStr "rejected") sample_state)))
      = Some ([rec_a1] ++ test' :: []) /\
    dict_get "checked" test' = Some (JStr "rejected") /\
    (forall name, name <> "checked"%string ->
                  dict_get name test' = dict_get name rec_a2) /\
    map fst test' =
      match dict_get "checked" rec_a2 with
      | Some _ => map fst rec_a2
      | None => map fst rec_a2 ++ ["checked"%string]
      end.
Proof.
  apply (update_test_sets_one_field sample_state (JStr "A") (JInt 2)
           "checked" (JStr "rejected") (KStr "A") [rec_a1] [] rec_a2).
  - reflexivity.
  - reflexivity.
  - repeat constructor.
  - reflexivity.
Defined.

Lemma dict_set_idem (name : string) (v : json) (d : record) :
  dict_set name v (dict_set name v d) = dict_set name v d.
Proof.
  induction d as [|[n w] d IH]; simpl.
  - now rewrite String.eqb_refl.
  - destruct (String.eqb n name) eqn:E; simpl; rewrite E; [reflexivity|].
    now rewrite IH.
Qed.

Lemma set_first_idem (test_id : json) (field : string) (value : json)
    (tests : list record) :
  field <> "id"%string ->
  set_first test_id field value (set_first test_id field value tests) =
  set_first test_id field value tests.
Proof.
  intros N. induction tests as [|t tests IH]; simpl; [reflexivity|].
  destruct (py_eq (get "id" t) test_id) eqn:E; simpl.
  - rewrite get_set_other by exact N. rewrite E. now rewrite dict_set_idem.
  - rewrite E. now rewrite IH.
Qed.

Lemma pdf_update_idem (k : key) (f : list record -> list record)
    (D : pdf_dict) :
  (forall l, f (f l) = f l) ->
  pdf_update k f (pdf_update k f D) = pdf_update k f D.
Proof.
  intros Hf. induction D as [|[k' l] D IH]; simpl; [reflexivity|].
  destruct (key_eqb k' k) eqn:E; simpl; rewrite E.
  - now rewrite Hf.
  - now rewrite IH.
Qed.

(** X10. Sending the same edit of a field other than [id] once more
    changes nothing more in the index. *)
Theorem update_test_twice (pdf_name test_id : json) (field : string)
    (value : json) (s : state) :
  field <> "id"%string ->
  let s1 := snd (update_test pdf_name test_id field value s) in
  let s2 := snd (update_test pdf_name test_id field value s1) in
  PDF_TESTS s2 = PDF_TESTS s1.
Proof.
  intros N s1 s2. subst s1 s2. destruct (hash_key pdf_name) as [k|] eqn:H.
  - rewrite !(update_test_PDF_TESTS _ _ _ _ _ _ H).
    apply pdf_update_idem. intros l. now apply set_first_idem.
  - now rewrite !update_test_unhashable by exact H.
Qed.

Lemma update_test_twice_witness :
  let s1 := snd (update_test (JStr "A") (JInt 1) "text" (JStr "Revenue")
                   sample_state) in
  let s2 := snd (update_test (JStr "A") (JInt 1) "text" (JStr "Revenue") s1) in
  PDF_TESTS s2 = PDF_TESTS s1.
Proof.
  apply (update_test_twice (JStr "A") (JInt 1) "text" (JStr "Revenue")
           sample_state).
  discriminate.
Defined.



Lemma In_set_first (test_id : json) (field : string) (value : json)
    (tests : list record) (t' : record) :
  In t' (set_first test_id field value tests) ->
  In t' tests \/ exists r, In r tests /\ t' = dict_set field value r.
Proof.
  induction tests as [|t tests IH]; simpl; [tauto|].
  destruct (py_eq (get "id" t) test_id); simpl.
  - intros [E|I]; [right; exists t; auto | left; now right].
  - intros [E|I]; [left; now left|].
    destruct (IH I) as [J|[r [J E]]]; [left; now right|].
    right. exists r. auto.
Qed.

Lemma In_pdf_update (k : key) (f : list record -> list record) (D : pdf_dict)
    (n : key) (l' : list record) :
  In (n, l') (pdf_update k f D) ->
  In (n, l') D \/ exists l, In (n, l) D /\ l' = f l.
Proof.
  induction D as [|[k' l] D IH]; simpl; [tauto|].
  destruct (key_eqb k' k); simpl.
  - intros [E|I]; [|left; now right].
    inversion E; subst. right. exists l. auto.
  - intros [E|I]; [left; now left|].
    destruct (IH I) as [J|[l0 [J E]]]; [left; now right|].
    right. exists l0. auto.
Qed.

(** X12. An edit that is not the assignment of null to [checked] never
    makes a document unreviewed: a document with an unchecked record after
    [update_test] had one before. *)
Theorem update_test_never_unreviews (pdf_name test_id : json)
    (field : string) (value : json) (s : state) (name : key) :
  field <> "checked"%string \/ value <> JNull ->
  has_unchecked
    (PDF_TESTS (snd (update_test pdf_name test_id field value s))) name ->
  has_unchecked (PDF_TESTS s) name.
Proof.
  intros C. destruct (hash_key pdf_name) as [k|] eqn:H.
  - rewrite (update_test_PDF_TESTS _ _ _ _ _ _ H).
    intros [tests' [t' [I [J U]]]].
    apply In_pdf_update in I. destruct I as [I|[tests [I E]]].
    + exists tests', t'. auto.
    + subst tests'. apply In_set_first in J.
      destruct J as [J|[r [J E]]].
      * exists tests, t'. auto.
      * subst t'. exists tests, r. split; [exact I|]. split; [exact J|].
        destruct (String.eqb field "checked") eqn:Ef.
        -- apply String.eqb_eq in Ef. subst field.
           unfold get in U. rewrite dict_get_set_same in U.
           destruct C as [C|C]; congruence.
        -- apply String.eqb_neq in Ef.
           now rewrite get_set_other in U.
  - now rewrite update_test_unhashable by exact H.
Qed.

Lemma update_test_never_unreviews_witness :
  has_unchecked (PDF_TESTS sample_state) (KStr "A").
Proof.
  apply (update_test_never_unreviews (JStr "A") (JInt 1) "checked"
           (JStr "verified") sample_state (KStr "A")).
  - right. discriminate.
  - exists [dict_set "checked" (JStr "verified") rec_a1; rec_a2], rec_a2.
    split; [vm_compute; left; reflexivity|].
    split; [right; left; reflexivity | reflexivity].
Defined.

(** ** The cursor handlers on any session *)

Lemma with_CURRENT_PDF_same (s : state) :
  with_CURRENT_PDF (CURRENT_PDF s) s = s.
Proof. now destruct s. Qed.

Lemma with_PDF_TESTS_twice (D D' : pdf_dict) (s : state) :
  with_PDF_TESTS D' (with_PDF_TESTS D s) = with_PDF_TESTS D' s.
Proof. now destruct s. Qed.

Lemma scan_pdfs_result (names : list key) :
  forall s, exists r D',
    scan_pdfs names s = (Ok r, with_PDF_TESTS D' s) /\
    (r = KNone \/ In r names).
Proof.
  induction names as [|k names IH]; intros s.
  - exists KNone, (PDF_TESTS s). rewrite with_PDF_TESTS_same. auto.
  - cbn [scan_pdfs]. unfold bind at 1.
    unfold PDF_TESTS_getitem, bind, get_state, modify, ret at 1. cbn beta iota.
    destruct (pdf_getitem k (PDF_TESTS s)) as [l D]. cbn beta iota.
    destruct (existsb unchecked l).
    + exists k, D. split; [reflexivity|]. right. now left.
    + destruct (IH (with_PDF_TESTS D s)) as [r [D' [R I]]].
      exists r, D'. rewrite R, with_PDF_TESTS_twice.
      split; [reflexivity|]. destruct I; [now left | right; now right].
Qed.

Lemma py_in_index_of (x : key) (l : list key) :
  py_in x l = true ->
  exists i, index_of x l = Some i /\ 0 <= i < len l.
Proof.
  unfold py_in, len. induction l as [|y l IH]; simpl; [discriminate|].
  destruct (key_eqb y x); simpl.
  - intros _. exists 0. split; [reflexivity | lia].
  - intros H. destruct (IH H) as [i [E B]]. rewrite E.
    exists (i + 1). split; [reflexivity | lia].
Qed.

Lemma getitem_in_range {A : Type} (l : list A) (i : Z) :
  0 <= i < len l ->
  exists x, getitem l i = Some x /\ nth_error l (Z.to_nat i) = Some x /\ In x l.
Proof.
  intros B. unfold getitem.
  assert (E : (0 <=? i) && (i <? len l) = true).
  { apply andb_true_iff. split; [apply Z.leb_le | apply Z.ltb_lt]; lia. }
  rewrite E. destruct (nth_error l (Z.to_nat i)) as [x|] eqn:N.
  - exists x. split; [reflexivity|]. split; [reflexivity|].
    eapply nth_error_In. exact N.
  - exfalso. apply nth_error_None in N. unfold len in B. lia.
Qed.

(** X13. On every session whatsoever the three cursor handlers return
    their redirect without raising, and the cursor they leave is the one
    there was or a name of the list ([None] or a name of the list for
    [next_pdf]).  [prev_pdf] and [goto_pdf] change nothing but the cursor;
    [next_pdf] changes nothing but the cursor and, through the defaultdict,
    possibly the index, which it leaves alone when the session is in
    order. *)
Theorem navigation_never_raises (s : state) (i : Z) :
  (exists k,
     prev_pdf s = (Ok (Redirect "index"), with_CURRENT_PDF k s) /\
     (k = CURRENT_PDF s \/ In k (ALL_PDFS s))) /\
  (exists k,
     goto_pdf i s = (Ok (Redirect "index"), with_CURRENT_PDF k s) /\
     (k = CURRENT_PDF s \/ In k (ALL_PDFS s))) /\
  (exists k D',
     next_pdf s =
       (Ok (Redirect "index"), with_CURRENT_PDF k (with_PDF_TESTS D' s)) /\
     (k = KNone \/ In k (ALL_PDFS s)) /\
     (session_ok s -> D' = PDF_TESTS s)).
Proof.
  split; [|split].
  - unfold prev_pdf, bind at 1, get_state at 1. cbn beta iota.
    destruct (py_in (CURRENT_PDF s) (ALL_PDFS s)) eqn:P.
    + destruct (py_in_index_of _ _ P) as [j [E B]].
      unfold bind at 1. unfold bind at 1. unfold list_index. rewrite E.
      unfold ret at 1. cbn beta iota.
      destruct (j >? 0) eqn:G.
      * destruct (getitem_in_range (ALL_PDFS s) (j - 1)) as [x [X [_ I]]].
        { apply Z.gtb_lt in G. lia. }
        unfold bind at 1. unfold list_getitem. rewrite X.
        exists x. split; [reflexivity | now right].
      * exists (CURRENT_PDF s). rewrite with_CURRENT_PDF_same.
        split; [reflexivity | now left].
    + exists (CURRENT_PDF s). rewrite with_CURRENT_PDF_same.
      split; [reflexivity | now left].
  - unfold goto_pdf, bind at 1, get_state at 1. cbn beta iota.
    destruct ((0 <=? i) && (i <? len (ALL_PDFS s))) eqn:E.
    + apply andb_true_iff in E. destruct E as [E1 E2].
      apply Z.leb_le in E1. apply Z.ltb_lt in E2.
      destruct (getitem_in_range (ALL_PDFS s) i) as [x [X [_ I]]]; [lia|].
      unfold bind at 1. unfold bind at 1. unfold list_getitem. rewrite X.
      exists x. split; [reflexivity | now right].
    + exists (CURRENT_PDF s). rewrite with_CURRENT_PDF_same.
      split; [reflexivity | now left].
  - destruct (scan_pdfs_result (ALL_PDFS s) s) as [r [D' [R I]]].
    assert (F : find_next_unchecked_pdf s = (Ok r, with_PDF_TESTS D' s))
      by exact R.
    assert (Fs : session_ok s -> D' = PDF_TESTS s).
    { intros Hs. rewrite (find_next_unchecked_pdf_run s Hs) in F.
      injection F as Hr Hd. apply (f_equal PDF_TESTS) in Hd.
      simpl in Hd. now symmetry. }
    unfold next_pdf, bind at 1, get_state at 1. cbn beta iota.
    destruct (py_in (CURRENT_PDF s) (ALL_PDFS s)) eqn:P.
    + destruct (py_in_index_of _ _ P) as [j [E B]].
      unfold bind at 1. unfold bind at 1. unfold list_index. rewrite E.
      unfold ret at 1. cbn beta iota.
      destruct (j <? len (ALL_PDFS s) - 1) eqn:G.
      * destruct (getitem_in_range (ALL_PDFS s) (j + 1)) as [x [X [_ J]]].
        { apply Z.ltb_lt in G. lia. }
        unfold bind at 1. unfold list_getitem. rewrite X.
        exists x, (PDF_TESTS s). rewrite with_PDF_TESTS_same.
        split; [reflexivity|]. split; [now right | reflexivity].
      * unfold bind at 1. rewrite F. exists r, D'.
        split; [reflexivity|]. split; assumption.
    + unfold bind at 1. unfold bind at 1. rewrite F. exists r, D'.
      split; [reflexivity|]. split; assumption.
Qed.

(** X14. A session in order whose cursor is [None] or a name of the list
    stays so under [next_pdf], [prev_pdf] and [goto_pdf]: only the cursor
    changes, and it is again [None] or a name of the list. *)
Theorem navigation_keeps_the_session (s : state) (i : Z) :
  session_ok s -> cursor_ok s ->
  moves_the_cursor_only next_pdf s /\
  moves_the_cursor_only prev_pdf s /\
  moves_the_cursor_only (goto_pdf i) s.
Proof.
  intros Hs Hc. unfold moves_the_cursor_only.
  destruct (navigation_never_raises s i)
    as [[kp [Rp Ip]] [[kg [Rg Ig]] [kn [D' [Rn [In_ Dn]]]]]].
  rewrite (Dn Hs), with_PDF_TESTS_same in Rn.
  assert (K : forall k, k = CURRENT_PDF s \/ In k (ALL_PDFS s) ->
                        cursor_ok (with_CURRENT_PDF k s)).
  { intros k [E|I]; unfold cursor_ok in *; simpl.
    - subst k. exact Hc.
    - now right. }
  split; [|split].
  - exists kn. split; [exact Rn|]. split; [exact Hs|].
    unfold cursor_ok. simpl. exact In_.
  - exists kp. split; [exact Rp|]. split; [exact Hs | now apply K].
  - exists kg. split; [exact Rg|]. split; [exact Hs | now apply K].
Qed.

Lemma navigation_keeps_the_session_witness :
  moves_the_cursor_only next_pdf sample_state /\
  moves_the_cursor_only prev_pdf sample_state /\
  moves_the_cursor_only (goto_pdf 1) sample_state.
Proof.
  apply (navigation_keeps_the_session sample_state 1).
  - split; [reflexivity|]. split.
    + repeat constructor; simpl; intuition discriminate.
    + simpl. intuition discriminate.
  - right. left. reflexivity.
Defined.

(** ** Neighbours *)

Lemma index_of_middle (x : key) (before rest : list key) :
  ~ In (canon x) (map canon before) ->
  index_of x (before ++ x :: rest) = Some (len before).
Proof.
  unfold len. induction before as [|y before IH]; simpl; intros N.
  - now rewrite key_eqb_refl.
  - destruct (key_eqb y x) eqn:E.
    + apply key_eqb_canon in E. exfalso. apply N. now left.
    + rewrite IH by tauto. f_equal. lia.
Qed.

Lemma py_in_middle (x : key) (before rest : list key) :
  py_in x (before ++ x :: rest) = true.
Proof.
  unfold py_in. rewrite existsb_app. simpl. rewrite key_eqb_refl.
  now rewrite orb_true_r.
Qed.

Lemma getitem_middle {A : Type} (x : A) (before rest : list A) :
  getitem (before ++ x :: rest) (len before) = Some x.
Proof.
  unfold getitem, len.
  assert (E : (0 <=? Z.of_nat (List.length before)) &&
              (Z.of_nat (List.length before) <?
               Z.of_nat (List.length (before ++ x :: rest))) = true).
  { apply andb_true_iff. split; [apply Z.leb_le | apply Z.ltb_lt].
    - lia.
    - rewrite length_app. simpl. lia. }
  rewrite E, Nat2Z.id, nth_error_app2 by lia.
  now rewrite Nat.sub_diag.
Qed.

Lemma next_pdf_to_successor (s : state) (before after : list key) (a b : key) :
  NoDup (map canon (ALL_PDFS s)) ->
  ALL_PDFS s = before ++ a :: b :: after ->
  CURRENT_PDF s = a ->
  next_pdf s = (Ok (Redirect "index"), with_CURRENT_PDF b s).
Proof.
  intros Hn Ha Hc.
  assert (Na : ~ In (canon a) (map canon before)).
  { rewrite Ha, map_app in Hn. simpl in Hn. apply NoDup_remove_2 in Hn.
    intros I. apply Hn. apply in_or_app. now left. }
  assert (L : len (ALL_PDFS s) = len before + 2 + len after).
  { rewrite Ha. unfold len. rewrite length_app. simpl. lia. }
  unfold next_pdf, bind at 1, get_state at 1. cbn beta iota.
  rewrite Hc, Ha, py_in_middle.
  unfold bind at 1. unfold bind at 1. unfold list_index.
  rewrite (index_of_middle a before (b :: after) Na).
  unfold ret at 1. cbn beta iota. rewrite <- Ha.
  assert (G : (len before <? len (ALL_PDFS s) - 1) = true).
  { apply Z.ltb_lt. unfold len in *. lia. }
  rewrite G. unfold bind at 1. unfold list_getitem. rewrite Ha.
  change (before ++ a :: b :: after) with (before ++ [a] ++ b :: after).
  rewrite app_assoc.
  replace (len before + 1) with (len (before ++ [a])).
  - now rewrite getitem_middle.
  - unfold len. rewrite length_app. simpl. lia.
Qed.

Lemma prev_pdf_to_predecessor (s : state) (before after : list key)
    (a b : key) :
  NoDup (map canon (ALL_PDFS s)) ->
  ALL_PDFS s = before ++ a :: b :: after ->
  CURRENT_PDF s = b ->
  prev_pdf s = (Ok (Redirect "index"), with_CURRENT_PDF a s).
Proof.
  intros Hn Ha Hc.
  assert (Ha' : ALL_PDFS s = (before ++ [a]) ++ b :: after).
  { rewrite Ha, <- app_assoc. reflexivity. }
  assert (Nb : ~ In (canon b) (map canon (before ++ [a]))).
  { rewrite Ha', map_app in Hn. simpl in Hn. apply NoDup_remove_2 in Hn.
    intros I. apply Hn. apply in_or_app. now left. }
  assert (L : len (before ++ [a]) = len before + 1).
  { unfold len. rewrite length_app. simpl. lia. }
  assert (P : py_in (CURRENT_PDF s) (ALL_PDFS s) = true).
  { rewrite Hc, Ha'. apply py_in_middle. }
  assert (I : index_of (CURRENT_PDF s) (ALL_PDFS s) = Some (len before + 1)).
  { rewrite Hc, Ha', <- L. now apply index_of_middle. }
  assert (G : (len before + 1 >? 0) = true).
  { apply Z.gtb_lt. unfold len. lia. }
  assert (X : getitem (ALL_PDFS s) (len before + 1 - 1) = Some a).
  { replace (len before + 1 - 1) with (len before) by lia.
    rewrite Ha. apply getitem_middle. }
  unfold prev_pdf, bind at 1, get_state at 1. cbn beta iota.
  rewrite P. unfold bind at 1. unfold bind at 1. unfold list_index.
  rewrite I. unfold ret at 1. cbn beta iota. rewrite G.
  unfold bind at 1. unfold list_getitem. now rewrite X.
Qed.

(** X15. Between two neighbours [a], [b] of a list of distinct names,
    [next_pdf] goes from [a] to [b] and [prev_pdf] from [b] to [a], and
    nothing else changes; so one after the other brings the session back
    to where it was. *)
Theorem next_and_prev_are_neighbours (s : state) (before after : list key)
    (a b : key) :
  NoDup (map canon (ALL_PDFS s)) ->
  ALL_PDFS s = before ++ a :: b :: after ->
  (CURRENT_PDF s = a ->
   next_pdf s = (Ok (Redirect "index"), with_CURRENT_PDF b s) /\
   (next_pdf ;; prev_pdf) s = (Ok (Redirect "index"), s)) /\
  (CURRENT_PDF s = b ->
   prev_pdf s = (Ok (Redirect "index"), with_CURRENT_PDF a s) /\
   (prev_pdf ;; next_pdf) s = (Ok (Redirect "index"), s)).
Proof.
  intros Hn Ha. split; intros Hc.
  - pose proof (next_pdf_to_successor s before after a b Hn Ha Hc) as N.
    split; [exact N|]. unfold bind. rewrite N.
    rewrite (prev_pdf_to_predecessor (with_CURRENT_PDF b s) before after a b)
      by (simpl; auto).
    f_equal. destruct s. simpl in *. now subst.
  - pose proof (prev_pdf_to_predecessor s before after a b Hn Ha Hc) as P.
    split; [exact P|]. unfold bind. rewrite P.
    rewrite (next_pdf_to_successor (with_CURRENT_PDF a s) before after a b)
      by (simpl; auto).
    f_equal. destruct s. simpl in *. now subst.
Qed.

Lemma next_and_prev_are_neighbours_witness :
  (next_pdf three_state
     = (Ok (Redirect "index"), with_CURRENT_PDF (KStr "B") three_state) /\
   (next_pdf ;; prev_pdf) three_state = (Ok (Redirect "index"), three_state)) /\
  (prev_pdf three_on_B
     = (Ok (Redirect "index"), with_CURRENT_PDF (KStr "A") three_on_B) /\
   (prev_pdf ;; next_pdf) three_on_B = (Ok (Redirect "index"), three_on_B)).
Proof.
  assert (N : NoDup (map canon [KStr "A"; KStr "B"; KStr "C"])).
  { repeat constructor; simpl; intuition discriminate. }
  split.
  - apply (next_and_prev_are_neighbours three_state [] [KStr "C"]
             (KStr "A") (KStr "B") N eq_refl). reflexivity.
  - apply (next_and_prev_are_neighbours three_on_B [] [KStr "C"]
             (KStr "A") (KStr "B") N eq_refl). reflexivity.
Defined.

(** ** The page *)

Lemma index_positioned (s : state) :
  is_None (CURRENT_PDF s) = false ->
  index s =
  (Ok (Render "review.html"
         match pdf_get (CURRENT_PDF s) (PDF_TESTS s) with
         | Some l => l
         | None => []
         end
         match index_of (CURRENT_PDF s) (ALL_PDFS s) with
         | Some i => i
         | None => 0
         end), s).
Proof.
  intros H. unfold index, bind at 1, get_state at 1. cbn beta iota.
  rewrite H. unfold bind at 1, ret at 1. cbn beta iota.
  unfold bind at 1, get_state at 1. cbn beta iota. now rewrite H.
Qed.

Lemma index_of_nth (x : key) (l : list key) (n : nat) :
  NoDup (map canon l) -> nth_error l n = Some x ->
  index_of x l = Some (Z.of_nat n).
Proof.
  intros Hn H. destruct (nth_error_split l n H) as [l1 [l2 [E L]]].
  subst l. rewrite <- L. apply index_of_middle.
  rewrite map_app in Hn. simpl in Hn. apply NoDup_remove_2 in Hn.
  intros I. apply Hn. apply in_or_app. now left.
Qed.

Lemma nth_error_keys (D : pdf_dict) (n : nat) (name : key) :
  nth_error (keys D) n = Some name ->
  exists tests, nth_error D n = Some (name, tests).
Proof.
  unfold keys. rewrite nth_error_map.
  destruct (nth_error D n) as [[k l]|]; simpl; [|discriminate].
  intros H. inversion H; subst. now exists l.
Qed.

(** X16. In a session in order, [goto_pdf] with an index in range followed
    by the page it redirects to shows the document at that position: the
    cursor is its name, and [review.html] is rendered with its records and
    with that very index. *)
Theorem goto_pdf_then_index (s : state) (i : Z) :
  session_ok s ->
  0 <= i < len (ALL_PDFS s) ->
  exists name tests,
    nth_error (ALL_PDFS s) (Z.to_nat i) = Some name /\
    nth_error (PDF_TESTS s) (Z.to_nat i) = Some (name, tests) /\
    (goto_pdf i ;; index) s =
      (Ok (Render "review.html" tests i), with_CURRENT_PDF name s).
Proof.
  intros [Ha [Hn Hk]] B.
  destruct (getitem_in_range (ALL_PDFS s) i B) as [name [X [N I]]].
  pose proof N as N'. rewrite Ha in N'.
  destruct (nth_error_keys _ _ _ N') as [tests T].
  exists name, tests. split; [exact N|]. split; [exact T|].
  assert (G : goto_pdf i s = (Ok (Redirect "index"), with_CURRENT_PDF name s)).
  { unfold goto_pdf, bind at 1, get_state at 1. cbn beta iota.
    assert (E : (0 <=? i) && (i <? len (ALL_PDFS s)) = true).
    { apply andb_true_iff. split; [apply Z.leb_le | apply Z.ltb_lt]; lia. }
    rewrite E. unfold bind at 1. unfold bind at 1. unfold list_getitem.
    now rewrite X. }
  unfold bind at 1. rewrite G.
  assert (Nn : is_None name = false).
  { destruct name; try reflexivity. exfalso. apply Hk. now rewrite <- Ha. }
  rewrite index_positioned by exact Nn. simpl.
  rewrite (pdf_get_In name tests (PDF_TESTS s) Hn)
    by (eapply nth_error_In; exact T).
  rewrite (index_of_nth name (ALL_PDFS s) (Z.to_nat i))
    by (try rewrite Ha; assumption).
  rewrite Z2Nat.id by lia. reflexivity.
Qed.

Lemma goto_pdf_then_index_witness :
  exists name tests,
    nth_error (ALL_PDFS sample_state) (Z.to_nat 1) = Some name /\
    nth_error (PDF_TESTS sample_state) (Z.to_nat 1) = Some (name, tests) /\
    (goto_pdf 1 ;; index) sample_state =
      (Ok (Render "review.html" tests 1), with_CURRENT_PDF name sample_state).
Proof.
  apply (goto_pdf_then_index sample_state 1).
  - split; [reflexivity|]. split.
    + repeat constructor; simpl; intuition discriminate.
    + simpl. intuition discriminate.
  - unfold len. simpl. lia.
Defined.

Lemma pdf_get_key (D : pdf_dict) (k : key) :
  In k (keys D) -> exists tests, pdf_get k D <> None /\ pdf_get k D = Some tests.
Proof.
  unfold keys. induction D as [|[k' l] D IH]; simpl; [tauto|].
  intros [E|I].
  - subst k'. rewrite key_eqb_refl. exists l. split; [discriminate|reflexivity].
  - destruct (key_eqb k' k); [exists l; split; [discriminate|reflexivity]|].
    now apply IH.
Qed.

Lemma In_py_in (x : key) (l : list key) : In x l -> py_in x l = true.
Proof.
  intros I. unfold py_in. apply existsb_exists. exists x.
  split; [exact I | apply key_eqb_refl].
Qed.

(** X17. The first page of a session in order that has no cursor yet: when
    every record is checked, [all_done.html] is rendered and the session
    is unchanged; otherwise the cursor goes to the first document with an
    unchecked record, and [review.html] is rendered with the records of
    that document and its position in the list. *)
Theorem index_without_cursor (s : state) :
  session_ok s ->
  CURRENT_PDF s = KNone ->
  exists r,
    find_next_unchecked_pdf s = (Ok r, s) /\
    (r = KNone -> index s = (Ok (Render "all_done.html" [] 0), s)) /\
    (r <> KNone ->
     exists tests i,
       pdf_get r (PDF_TESTS s) = Some tests /\
       index_of r (ALL_PDFS s) = Some i /\
       index s = (Ok (Render "review.html" tests i), with_CURRENT_PDF r s)).
Proof.
  intros Hs Hc. pose proof Hs as [Ha [Hn Hk]].
  pose proof (find_next_unchecked_pdf_run s Hs) as F.
  remember (first_unchecked (PDF_TESTS s)) as r eqn:Er.
  exists r. split; [exact F|].
  assert (U : index s =
              match is_None r with
              | true => (Ok (Render "all_done.html" [] 0), with_CURRENT_PDF r s)
              | false =>
                  (Ok (Render "review.html"
                         match pdf_get r (PDF_TESTS s) with
                         | Some l => l
                         | None => []
                         end
                         match index_of r (ALL_PDFS s) with
                         | Some i => i
                         | None => 0
                         end), with_CURRENT_PDF r s)
              end).
  { unfold index, bind at 1, get_state at 1. cbn beta iota.
    rewrite Hc. cbn [is_None]. unfold bind at 1. unfold bind at 1.
    rewrite F. unfold modify at 1. cbn beta iota.
    unfold bind at 1, get_state at 1. cbn beta iota.
    change (CURRENT_PDF (with_CURRENT_PDF r s)) with r.
    change (PDF_TESTS (with_CURRENT_PDF r s)) with (PDF_TESTS s).
    change (ALL_PDFS (with_CURRENT_PDF r s)) with (ALL_PDFS s).
    destruct (is_None r); reflexivity. }
  split.
  - intros E. rewrite U, E. simpl. rewrite <- Hc.
    now rewrite with_CURRENT_PDF_same.
  - intros N.
    assert (I : In r (keys (PDF_TESTS s))).
    { destruct (first_unchecked_in (PDF_TESTS s)) as [E|I];
        rewrite <- Er in *; [contradiction | exact I]. }
    destruct (pdf_get_key _ _ I) as [tests [_ T]].
    assert (P : py_in r (ALL_PDFS s) = true).
    { apply In_py_in. now rewrite Ha. }
    destruct (py_in_index_of _ _ P) as [i [E _]].
    exists tests, i. split; [exact T|]. split; [exact E|].
    rewrite U, T, E. destruct r; try reflexivity. contradiction.
Qed.

Lemma index_without_cursor_witness :
  exists r,
    find_next_unchecked_pdf fresh_state = (Ok r, fresh_state) /\
    (r = KNone -> index fresh_state
                  = (Ok (Render "all_done.html" [] 0), fresh_state)) /\
    (r <> KNone ->
     exists tests i,
       pdf_get r (PDF_TESTS fresh_state) = Some tests /\
       index_of r (ALL_PDFS fresh_state) = Some i /\
       index fresh_state
         = (Ok (Render "review.html" tests i), with_CURRENT_PDF r fresh_state)).
Proof.
  apply (index_without_cursor fresh_state).
  - split; [reflexivity|]. split.
    + repeat constructor; simpl; intuition discriminate.
    + simpl. intuition discriminate.
  - reflexivity.
Defined.
